(** * Conversation manager of the UMS agent: model and properties

    Shallow embedding of [agent/conversation_manager.py] and
    [agent/prompts.py].  The manager keeps every conversation as a JSON
    document in Redis under ["conversation:" + id] and keeps a sorted set
    of conversation ids, scored by last activity, under
    ["conversations:list"].

    Conventions of the model.
    - Python dictionaries and the values [json.loads] returns are [json]
      trees; a dictionary is a [gmap string json].
    - The text [json.dumps] produces is kept abstract: a [text] is
      represented by the document it encodes, so [json.loads] of a text
      written by [json.dumps] gives the document back.
    - Redis is one keyspace [gmap string rvalue]; the commands follow the
      Redis reference, wrong-type errors included.
    - Every coroutine is a computation [io A]: it takes the store and
      returns either a value or the exception raised, together with the
      store as it was when the computation stopped.
    - [datetime.now(UTC)] is an input of the operation that reads it: an
      integer count of microseconds since the epoch. *)

From stdpp Require Import gmap strings list fin_maps sorting.
From Stdlib Require Import ZArith.

Set Warnings "-register-all".
Local Open Scope Z_scope.
Local Open Scope string_scope.
Local Open Scope list_scope.

(** ** Python values *)

Inductive json :=
| JNull
| JBool (b : bool)
| JNum (n : Z)
| JStr (s : string)
| JArr (l : list json)
| JObj (m : gmap string json).

Inductive exn :=
| ValueError (msg : string)
| TypeError
| KeyError (k : string)
| AttributeError
| ValidationError
| DataError
| WrongType
| ClientError (msg : string).

Inductive result (A : Type) :=
| Ok (a : A)
| Raise (e : exn).
Arguments Ok {A} a.
Arguments Raise {A} e.

Definition result_bind {A B} (x : result A) (k : A → result B) : result B :=
  match x with
  | Ok a => k a
  | Raise e => Raise e
  end.

Fixpoint result_map {A B} (f : A → result B) (l : list A) : result (list B) :=
  match l with
  | [] => Ok []
  | a :: l' =>
      result_bind (f a) (λ b,
      result_bind (result_map f l') (λ bs, Ok (b :: bs)))
  end.

(** [bool(x)] *)
Definition truthy (j : json) : bool :=
  match j with
  | JNull => false
  | JBool b => b
  | JNum n => negb (Z.eqb n 0)
  | JStr s => negb (String.eqb s "")
  | JArr l => match l with [] => false | _ => true end
  | JObj m => negb (Nat.eqb (size m) 0)
  end.

(** [x[k]] *)
Definition subscript (j : json) (k : string) : result json :=
  match j with
  | JObj m =>
      match m !! k with
      | Some v => Ok v
      | None => Raise (KeyError k)
      end
  | _ => Raise TypeError
  end.

(** [x[k] = v] *)
Definition set_item (j : json) (k : string) (v : json) : result json :=
  match j with
  | JObj m => Ok (JObj (<[k := v]> m))
  | _ => Raise TypeError
  end.

(** [x.get(k, default)] *)
Definition dict_get (j : json) (k : string) (default : json) : result json :=
  match j with
  | JObj m =>
      match m !! k with
      | Some v => Ok v
      | None => Ok default
      end
  | _ => Raise AttributeError
  end.

(** A [str] is kept as its UTF-8 encoding: a character starts at every
    byte that is not a continuation byte (a byte of the form
    [10xxxxxx]) and extends over the continuation bytes that follow. *)
Definition continuation_byte (c : Ascii.ascii) : bool :=
  match c with
  | Ascii.Ascii _ _ _ _ _ _ b6 b7 => b7 && negb b6
  end.

(** The continuation bytes a string starts with, and the characters
    after them. *)
Fixpoint split_chars (s : string) : string * list string :=
  match s with
  | EmptyString => (EmptyString, [])
  | String c s' =>
      let '(pending, rest) := split_chars s' in
      if continuation_byte c then (String c pending, rest)
      else (EmptyString, String c pending :: rest)
  end.

(** The characters of a [str], as [for] visits and [len] counts them. *)
Definition chars (s : string) : list json := JStr <$> (split_chars s).2.

(** The elements [for x in j] visits. *)
Definition py_iter (j : json) : result (list json) :=
  match j with
  | JArr l => Ok l
  | JStr s => Ok (chars s)
  | JObj m => Ok (JStr <$> (map_to_list m).*1)
  | _ => Raise TypeError
  end.

(** [len(x)] *)
Definition py_len (j : json) : result nat :=
  match j with
  | JArr l => Ok (length l)
  | JStr s => Ok (length (chars s))
  | JObj m => Ok (size m)
  | _ => Raise TypeError
  end.

(** ** The [json] module *)

Inductive text := Dumped (j : json).

Definition json_dumps (j : json) : text := Dumped j.

(** [json.loads(None)] is a [TypeError]. *)
Definition json_loads (s : option text) : result json :=
  match s with
  | Some (Dumped j) => Ok j
  | None => Raise TypeError
  end.

(** ** Messages *)

(** Modelled from the spec: [agent/models/message.py] is not among the
    sources.  A message has a role out of system, user, assistant and
    tool, a nullable content, the tool calls of an assistant message and
    the tool call id of a tool result. *)
Inductive Role := SYSTEM | USER | ASSISTANT | TOOL.

(** Modelled from the spec: a tool call is an id, a tool name and a
    structured payload of arguments. *)
Record ToolCall := mkToolCall {
  tc_id : string;
  tc_name : string;
  tc_arguments : json
}.

(** Modelled from the spec: the message record of
    [agent/models/message.py]. *)
Record Message := mkMessage {
  role : Role;
  content : option string;
  tool_calls : option (list ToolCall);
  tool_call_id : option string
}.

Definition role_value (r : Role) : string :=
  match r with
  | SYSTEM => "system"
  | USER => "user"
  | ASSISTANT => "assistant"
  | TOOL => "tool"
  end.

Definition role_of_value (s : string) : option Role :=
  if String.eqb s "system" then Some SYSTEM
  else if String.eqb s "user" then Some USER
  else if String.eqb s "assistant" then Some ASSISTANT
  else if String.eqb s "tool" then Some TOOL
  else None.

Definition dump_optional (o : option string) : json :=
  match o with
  | Some s => JStr s
  | None => JNull
  end.

Definition dump_tool_call (tc : ToolCall) : json :=
  JObj (<["id" := JStr (tc_id tc)]>
       (<["name" := JStr (tc_name tc)]>
       (<["arguments" := tc_arguments tc]> ∅))).

(** Modelled from the spec: [Message.model_dump()], the dictionary of
    the four fields of the message. *)
Definition model_dump (msg : Message) : json :=
  JObj (<["role" := JStr (role_value (role msg))]>
       (<["content" := dump_optional (content msg)]>
       (<["tool_calls" :=
            match tool_calls msg with
            | Some tcs => JArr (dump_tool_call <$> tcs)
            | None => JNull
            end]>
       (<["tool_call_id" := dump_optional (tool_call_id msg)]> ∅)))).

Definition optional_field (m : gmap string json) (k : string)
  : result (option string) :=
  match m !! k with
  | None | Some JNull => Ok None
  | Some (JStr s) => Ok (Some s)
  | Some _ => Raise ValidationError
  end.

Definition validate_tool_call (j : json) : result ToolCall :=
  match j with
  | JObj m =>
      match m !! "id", m !! "name", m !! "arguments" with
      | Some (JStr i), Some (JStr n), Some a => Ok (mkToolCall i n a)
      | _, _, _ => Raise ValidationError
      end
  | _ => Raise ValidationError
  end.

Definition validate_role (m : gmap string json) : result Role :=
  match m !! "role" with
  | Some (JStr s) =>
      match role_of_value s with
      | Some r => Ok r
      | None => Raise ValidationError
      end
  | _ => Raise ValidationError
  end.

Definition validate_tool_calls (m : gmap string json)
  : result (option (list ToolCall)) :=
  match m !! "tool_calls" with
  | None | Some JNull => Ok None
  | Some (JArr l) =>
      result_bind (result_map validate_tool_call l) (λ tcs, Ok (Some tcs))
  | Some _ => Raise ValidationError
  end.

(** Modelled from the spec: the constructor [Message] called on the
    unpacked entries of [msg_data].  Unpacking anything but a mapping
    is a [TypeError]; the fields of a mapping are validated, a missing
    optional field being [None]. *)
Definition Message_init (msg_data : json) : result Message :=
  match msg_data with
  | JObj m =>
      result_bind (validate_role m) (λ r,
      result_bind (optional_field m "content") (λ c,
      result_bind (validate_tool_calls m) (λ tcs,
      result_bind (optional_field m "tool_call_id") (λ tci,
      Ok (mkMessage r c tcs tci)))))
  | _ => Raise TypeError
  end.

(** ** Redis *)

Inductive rvalue :=
| RString (t : text)
| RZSet (z : gmap string Z).

Abbreviation redis := (gmap string rvalue).

Definition io (A : Type) : Type := redis → result A * redis.

Definition ret {A} (a : A) : io A := λ db, (Ok a, db).

Definition raise {A} (e : exn) : io A := λ db, (Raise e, db).

Definition lift {A} (x : result A) : io A := λ db, (x, db).

Definition bind {A B} (c : io A) (k : A → io B) : io B :=
  λ db,
    match c db with
    | (Ok a, db') => k a db'
    | (Raise e, db') => (Raise e, db')
    end.

Declare Scope io_scope.
Delimit Scope io_scope with io.
Notation "x <- c ;; k" := (bind c (λ x, k))
  (at level 100, c at next level, right associativity) : io_scope.
Notation "c ;; k" := (bind c (λ _, k))
  (at level 100, right associativity) : io_scope.

(** Members of a sorted set are ordered by score and, at equal scores,
    by the bytes of the member. *)
Definition zentry_le (a b : string * Z) : Prop :=
  a.2 < b.2 ∨ (a.2 = b.2 ∧ String.leb a.1 b.1 = true).

#[global] Instance zentry_le_dec : RelDecision zentry_le.
Proof. intros a b. unfold zentry_le. apply _. Defined.

Module Redis.

(** GET *)
Definition get (key : string) : io (option text) :=
  λ db,
    match db !! key with
    | None => (Ok None, db)
    | Some (RString t) => (Ok (Some t), db)
    | Some (RZSet _) => (Raise WrongType, db)
    end.

(** SET *)
Definition set (key : string) (value : text) : io unit :=
  λ db, (Ok tt, <[key := RString value]> db).

(** DEL: the number of keys removed. *)
Definition delete (key : string) : io Z :=
  λ db,
    match db !! key with
    | Some _ => (Ok 1, base.delete key db)
    | None => (Ok 0, db)
    end.

(** ZADD of one member. *)
Definition zadd (key : string) (member : string) (score : Z) : io unit :=
  λ db,
    match db !! key with
    | None => (Ok tt, <[key := RZSet {[member := score]}]> db)
    | Some (RZSet z) => (Ok tt, <[key := RZSet (<[member := score]> z)]> db)
    | Some (RString _) => (Raise WrongType, db)
    end.

Definition ascending (z : gmap string Z) : list (string * Z) :=
  merge_sort zentry_le (map_to_list z).

Definition descending (z : gmap string Z) : list string :=
  (reverse (ascending z)).*1.

(** ZREVRANGE key 0 -1 *)
Definition zrevrange (key : string) : io (list string) :=
  λ db,
    match db !! key with
    | None => (Ok [], db)
    | Some (RZSet z) => (Ok (descending z), db)
    | Some (RString _) => (Raise WrongType, db)
    end.

End Redis.

(** ** [agent/prompts.py] *)

Definition SYSTEM_PROMPT : string := "
You are a User Management Agent designed to assist with managing user data through a User Service. 
Your primary role is to perform tasks such as creating, reading, updating, deleting, and searching for user information based on the commands you receive.
When responding to queries, please adhere to the following guidelines:
1. Always provide structured and clear responses, using bullet points or numbered lists where appropriate.
2. Confirm actions taken, such as user creation or updates, with concise summaries. 
3. Handle errors gracefully by providing informative messages that help users understand what went wrong and how to fix it.
4. Maintain a professional and courteous tone in all interactions.
5. Only respond to queries related to user management. If a query is outside this domain, politely decline to answer.
".

(** ** The model client *)

(** Modelled from the spec: [agent/clients/dial_client.py] is not among
    the sources.  [response messages] runs the agent loop on the list
    [messages], which the loop extends in place: it gives the final
    assistant message and the list as the loop leaves it, or the
    exception of a failed model call.  [stream_response messages] is the
    streaming loop, a finite generator: the chunks it yields, then how
    it ends, either normally with the list as the loop leaves it or with
    an exception. *)
Record DialClient := mkDialClient {
  response : list Message → result (Message * list Message);
  stream_response : list Message → list string * result (list Message)
}.

(** ** [agent/conversation_manager.py] *)

Definition CONVERSATION_PREFIX : string := "conversation:".
Definition CONVERSATION_LIST_KEY : string := "conversations:list".

(** A string the generator of [_stream_chat] yields: [Data payload] is
    the server-sent event whose data line is [payload], [Chunk s] is a
    chunk of the client's generator, passed on as it is.  What the
    consumer receives at each step is a [result (option frame)]:
    [Ok (Some x)] is a yielded [x], [Ok None] the end of the iteration,
    [Raise e] an exception out of the generator. *)
Inductive frame :=
| Data (payload : text)
| Chunk (s : string).

(** The generator object of [_stream_chat], by the point where its body
    is suspended: not started, at the [yield] of the identifier frame,
    at the [yield] of a chunk (with what the client's generator still
    holds), and finished. *)
Inductive generator :=
| Created (conversation_id : string) (messages : list Message)
| AtFrame (conversation_id : string) (messages : list Message)
| AtChunk (conversation_id : string) (pending : list string)
    (ending : result (list Message))
| Finished.

Inductive chat_reply :=
| Answer (d : json)
| Streaming (g : generator).

Section Manager.

Context (isoformat : Z → string).
Context (py_repr : json → string).
Context (dial_client : DialClient).

Local Open Scope io_scope.

(** [str(x)] inside an f-string; [py_repr] stands for the rendering
    of values that are not strings. *)
Definition format_value (j : json) : string :=
  match j with
  | JStr s => s
  | _ => py_repr j
  end.

(** The member sent for the key [x] of the mapping given to [zadd]:
    lists and dictionaries are unhashable, the client library refuses
    [None] and booleans and sends the rendering of a number. *)
Definition zadd_member (j : json) : result string :=
  match j with
  | JStr s => Ok s
  | JNum _ => Ok (py_repr j)
  | JNull | JBool _ => Raise DataError
  | JArr _ | JObj _ => Raise TypeError
  end.

Definition create_conversation (title : option string) (uuid4 : string)
    (now1 now2 : Z) : io json :=
  let conversation_id := uuid4 in
  let current_time := isoformat now1 in
  let conversation :=
    JObj (<["id" := JStr conversation_id]>
         (<["title" := dump_optional title]>
         (<["messages" := JArr []]>
         (<["created_at" := JStr current_time]>
         (<["updated_at" := JStr current_time]> ∅))))) in
  Redis.set (CONVERSATION_PREFIX +:+ conversation_id)
    (json_dumps conversation) ;;
  Redis.zadd CONVERSATION_LIST_KEY conversation_id now2 ;;
  ret conversation.

Definition summary (conv : json) : result json :=
  result_bind (subscript conv "id") (λ id,
  result_bind (subscript conv "title") (λ title,
  result_bind (subscript conv "created_at") (λ created_at,
  result_bind (subscript conv "updated_at") (λ updated_at,
  result_bind (subscript conv "messages") (λ messages,
  result_bind (py_len messages) (λ message_count,
  Ok (JObj (<["id" := id]>
           (<["title" := title]>
           (<["created_at" := created_at]>
           (<["updated_at" := updated_at]>
           (<["message_count" := JNum (Z.of_nat message_count)]>
              ∅)))))))))))).

Fixpoint list_loop (conversation_ids : list string)
    (conversations : list json) : io (list json) :=
  match conversation_ids with
  | [] => ret conversations
  | conversation_id :: rest =>
      conv_data <- Redis.get (CONVERSATION_PREFIX +:+ conversation_id) ;;
      match conv_data with
      | Some _ =>
          conv <- lift (json_loads conv_data) ;;
          entry <- lift (summary conv) ;;
          list_loop rest (conversations ++ [entry])
      | None => list_loop rest conversations
      end
  end.

Definition list_conversations : io (list json) :=
  conversation_ids <- Redis.zrevrange CONVERSATION_LIST_KEY ;;
  list_loop conversation_ids [].

Definition get_conversation (conversation_id : string)
  : io (option json) :=
  conv_data <- Redis.get (CONVERSATION_PREFIX +:+ conversation_id) ;;
  match conv_data with
  | None => ret None
  | Some _ =>
      conversation <- lift (json_loads conv_data) ;;
      ret (Some conversation)
  end.

Definition delete_conversation (conversation_id : string) : io bool :=
  deleted_count <- Redis.delete (CONVERSATION_PREFIX +:+ conversation_id) ;;
  ret (0 <? deleted_count)%Z.

Definition _save_conversation (conversation : json) (now : Z) : io unit :=
  conversation_id <- lift (subscript conversation "id") ;;
  Redis.set (CONVERSATION_PREFIX +:+ format_value conversation_id)
    (json_dumps conversation) ;;
  member <- lift (zadd_member conversation_id) ;;
  Redis.zadd CONVERSATION_LIST_KEY member now.

Definition _save_conversation_messages (conversation_id : string)
    (messages : list Message) (now1 now2 : Z) : io unit :=
  conv_data <- Redis.get (CONVERSATION_PREFIX +:+ conversation_id) ;;
  conversation <- lift (json_loads conv_data) ;;
  conversation <- lift (set_item conversation "messages"
                          (JArr (model_dump <$> messages))) ;;
  conversation <- lift (set_item conversation "updated_at"
                          (JStr (isoformat now1))) ;;
  _save_conversation conversation now2.

Definition _non_stream_chat (conversation_id : string)
    (messages : list Message) (now1 now2 : Z) : io json :=
  reply <- lift (response dial_client messages) ;;
  let '(ai_message, messages) := reply in
  _save_conversation_messages conversation_id messages now1 now2 ;;
  ret (JObj (<["content" := JStr (default "" (content ai_message))]>
            (<["conversation_id" := JStr conversation_id]> ∅))).

(** Calling the generator function runs none of its body. *)
Definition _stream_chat (conversation_id : string)
    (messages : list Message) : generator :=
  Created conversation_id messages.

(** The [async for] over the client's generator from the point where
    [pending] chunks are left, and the save after it. *)
Definition forward (conversation_id : string) (pending : list string)
    (ending : result (list Message)) (now1 now2 : Z) (db : redis)
  : result (option frame) * generator * redis :=
  match pending with
  | chunk :: pending' =>
      (Ok (Some (Chunk chunk)),
       AtChunk conversation_id pending' ending, db)
  | [] =>
      match ending with
      | Ok messages =>
          match _save_conversation_messages conversation_id messages
                  now1 now2 db with
          | (Ok _, db') => (Ok None, Finished, db')
          | (Raise e, db') => (Raise e, Finished, db')
          end
      | Raise e => (Raise e, Finished, db)
      end
  end.

(** One [__anext__] of the generator of [_stream_chat]. *)
Definition anext (g : generator) (now1 now2 : Z) (db : redis)
  : result (option frame) * generator * redis :=
  match g with
  | Created conversation_id messages =>
      (Ok (Some (Data (json_dumps
         (JObj {["conversation_id" := JStr conversation_id]})))),
       AtFrame conversation_id messages, db)
  | AtFrame conversation_id messages =>
      let '(chunks, ending) := stream_response dial_client messages in
      forward conversation_id chunks ending now1 now2 db
  | AtChunk conversation_id pending ending =>
      forward conversation_id pending ending now1 now2 db
  | Finished => (Ok None, Finished, db)
  end.

(** The consumer asks [n] times for the next item. *)
Fixpoint pull (n : nat) (g : generator) (now1 now2 : Z) (db : redis)
  : list (result (option frame)) * generator * redis :=
  match n with
  | O => ([], g, db)
  | S n' =>
      let '(item, g', db') := anext g now1 now2 db in
      let '(items, g'', db'') := pull n' g' now1 now2 db' in
      (item :: items, g'', db'')
  end.

(** The list comprehension of [chat]: the typed messages of a loaded
    conversation, built from [conversation.get("messages", [])]. *)
Definition typed_messages (conversation : json) : result (list Message) :=
  result_bind (dict_get conversation "messages" (JArr [])) (λ stored,
  result_bind (py_iter stored) (λ msg_datas,
  result_map Message_init msg_datas)).

(** The two appends of [chat]: the system prompt when the history is
    empty, then the user's message. *)
Definition turn_messages (messages : list Message) (user_message : Message)
  : list Message :=
  let messages :=
    match messages with
    | [] => messages ++ [mkMessage SYSTEM (Some SYSTEM_PROMPT) None None]
    | _ => messages
    end in
  messages ++ [user_message].

Definition chat (user_message : Message) (conversation_id : string)
    (stream : bool) (now1 now2 : Z) : io chat_reply :=
  conversation <- get_conversation conversation_id ;;
  match conversation with
  | Some conversation =>
      if truthy conversation then
        messages <- lift (typed_messages conversation) ;;
        let messages := turn_messages messages user_message in
        if stream then
          ret (Streaming (_stream_chat conversation_id messages))
        else
          d <- _non_stream_chat conversation_id messages now1 now2 ;;
          ret (Answer d)
      else
        raise (ValueError ("No conversation found with id: "
                           +:+ conversation_id))
  | None =>
      raise (ValueError ("No conversation found with id: "
                         +:+ conversation_id))
  end.

End Manager.

(** ** Stores the manager leaves behind *)

(** The recency index: the sorted set under [CONVERSATION_LIST_KEY]. *)
Definition index (db : redis) : gmap string Z :=
  match db !! CONVERSATION_LIST_KEY with
  | Some (RZSet z) => z
  | _ => ∅
  end.

(** A conversation document as [create_conversation] writes it, for the
    identifier it is stored under. *)
Definition well_formed (conversation_id : string) (m : gmap string json)
  : Prop :=
  m !! "id" = Some (JStr conversation_id) ∧
  is_Some (m !! "title") ∧
  (∃ l, m !! "messages" = Some (JArr l)) ∧
  is_Some (m !! "created_at") ∧
  is_Some (m !! "updated_at").

Definition index_ok (db : redis) : Prop :=
  ∀ t, db !! CONVERSATION_LIST_KEY ≠ Some (RString t).

Definition records_ok (db : redis) : Prop :=
  ∀ conversation_id v,
    db !! (CONVERSATION_PREFIX +:+ conversation_id) = Some v →
    ∃ m, v = RString (json_dumps (JObj m)) ∧ well_formed conversation_id m.

Definition consistent (db : redis) : Prop := index_ok db ∧ records_ok db.

(** The store after [_save_conversation_messages] has rewritten the
    document [m] of a conversation and refreshed its index entry. *)
Definition after_save (isoformat : Z → string) (conversation_id : string)
    (m : gmap string json) (messages : list Message) (now1 now2 : Z)
    (db : redis) : redis :=
  <[CONVERSATION_LIST_KEY :=
      RZSet (<[conversation_id := now2]> (index db))]>
    (<[CONVERSATION_PREFIX +:+ conversation_id :=
         RString (json_dumps (JObj
           (<["updated_at" := JStr (isoformat now1)]>
           (<["messages" := JArr (model_dump <$> messages)]> m))))]> db).

(** The typed messages a later [chat] reconstructs for a conversation:
    [get_conversation] followed by the list comprehension. *)
Definition persisted_messages (db : redis) (conversation_id : string)
  : option (list Message) :=
  match get_conversation conversation_id db with
  | (Ok (Some conversation), _) =>
      match typed_messages conversation with
      | Ok messages => Some messages
      | Raise _ => None
      end
  | _ => None
  end.

(** The first frame of a stream, and a forwarded chunk, as the consumer
    receives them. *)
Definition identifier_frame (conversation_id : string) : frame :=
  Data (json_dumps (JObj {["conversation_id" := JStr conversation_id]})).

Definition chunk_item (chunk : string) : result (option frame) :=
  Ok (Some (Chunk chunk)).

(** What the consumer receives when the save that ends a stream returns
    or raises. *)
Definition end_of_stream (outcome : result unit) : result (option frame) :=
  match outcome with
  | Ok _ => Ok None
  | Raise e => Raise e
  end.

(** In the index [z], the entry of [a] is at least as recent as the
    entry of [b]. *)
Definition not_older (z : gmap string Z) (a b : string) : Prop :=
  ∃ sa sb : Z, z !! a = Some sa ∧ z !! b = Some sb ∧ (sb ≤ sa)%Z.

(** The key of the conversation holds a value. *)
Definition has_record (db : redis) (conversation_id : string) : Prop :=
  is_Some (db !! (CONVERSATION_PREFIX +:+ conversation_id)).

#[global] Instance has_record_dec (db : redis) (conversation_id : string) :
  Decision (has_record db conversation_id).
Proof. unfold has_record. apply _. Defined.

(** [entry] is the summary of the document stored for the
    conversation. *)
Definition summarises (db : redis) (conversation_id : string) (entry : json)
  : Prop :=
  ∃ conv,
    db !! (CONVERSATION_PREFIX +:+ conversation_id)
      = Some (RString (json_dumps conv))
    ∧ summary conv = Ok entry.

(** The identifier a summary of [list_conversations] carries. *)
Definition summary_id (entry : json) : result json := subscript entry "id".

(** The stores the manager can leave: starting from an empty Redis,
    any sequence of calls of its public operations and of steps of the
    generators it hands out. *)
Inductive reachable (isoformat : Z → string) (py_repr : json → string)
    (dial_client : DialClient) : redis → Prop :=
| reachable_empty : reachable isoformat py_repr dial_client ∅
| reachable_create db title uuid4 now1 now2 :
    reachable isoformat py_repr dial_client db →
    reachable isoformat py_repr dial_client
      (create_conversation isoformat title uuid4 now1 now2 db).2
| reachable_list db :
    reachable isoformat py_repr dial_client db →
    reachable isoformat py_repr dial_client (list_conversations db).2
| reachable_get db conversation_id :
    reachable isoformat py_repr dial_client db →
    reachable isoformat py_repr dial_client
      (get_conversation conversation_id db).2
| reachable_delete db conversation_id :
    reachable isoformat py_repr dial_client db →
    reachable isoformat py_repr dial_client
      (delete_conversation conversation_id db).2
| reachable_chat db user_message conversation_id stream now1 now2 :
    reachable isoformat py_repr dial_client db →
    reachable isoformat py_repr dial_client
      (chat isoformat py_repr dial_client user_message conversation_id
         stream now1 now2 db).2
| reachable_anext db g now1 now2 :
    reachable isoformat py_repr dial_client db →
    reachable isoformat py_repr dial_client
      (anext isoformat py_repr dial_client g now1 now2 db).2.

(** One call of an operation of the manager, or one step of a
    generator it has handed out. *)
Inductive manager_step (isoformat : Z → string) (py_repr : json → string)
    (dial_client : DialClient) (db : redis) : redis → Prop :=
| step_create title uuid4 now1 now2 :
    manager_step isoformat py_repr dial_client db
      (create_conversation isoformat title uuid4 now1 now2 db).2
| step_list :
    manager_step isoformat py_repr dial_client db (list_conversations db).2
| step_get conversation_id :
    manager_step isoformat py_repr dial_client db
      (get_conversation conversation_id db).2
| step_delete conversation_id :
    manager_step isoformat py_repr dial_client db
      (delete_conversation conversation_id db).2
| step_chat user_message conversation_id stream now1 now2 :
    manager_step isoformat py_repr dial_client db
      (chat isoformat py_repr dial_client user_message conversation_id
         stream now1 now2 db).2
| step_anext g now1 now2 :
    manager_step isoformat py_repr dial_client db
      (anext isoformat py_repr dial_client g now1 now2 db).2.

(** The number of messages a summary of [list_conversations] carries. *)
Definition summary_count (entry : json) : result json :=
  subscript entry "message_count".

(** ** [agent/app.py]

    A request handler is modelled as the coroutine it is: what it
    returns or raises, and the store it leaves.  What the web framework
    does with the returned value is outside the model. *)

(** The manager object of [ConversationManager.__init__]: it keeps the
    client; its Redis connection is the store the computations run
    on. *)
Record ConversationManager := mkConversationManager {
  manager_dial_client : DialClient
}.

Inductive failure :=
| HTTPException (status_code : Z) (detail : string)
| Uncaught (e : exn).

Inductive outcome (A : Type) :=
| Returned (a : A)
| Failed (f : failure).
Arguments Returned {A} a.
Arguments Failed {A} f.

Definition handler (A : Type) : Type := redis → outcome A * redis.

(** [await c], an exception of [c] leaving the handler uncaught. *)
Definition await {A B} (c : io A) (k : A → handler B) : handler B :=
  λ db,
    match c db with
    | (Ok a, db') => k a db'
    | (Raise e, db') => (Failed (Uncaught e), db')
    end.

Definition evaluated {A} (x : result A) : handler A :=
  λ db,
    match x with
    | Ok a => (Returned a, db)
    | Raise e => (Failed (Uncaught e), db)
    end.

Record CreateConversationRequest := mkCreateConversationRequest {
  request_title : option string
}.

Record ChatRequest := mkChatRequest {
  request_message : Message;
  request_stream : bool
}.

Record ConversationSummary := mkConversationSummary {
  cs_id : string;
  cs_title : string;
  cs_created_at : string;
  cs_updated_at : string;
  cs_message_count : Z
}.

(** What the chat handler returns: [StreamingResponse(result,
    media_type)] or [ChatResponse(content, conversation_id)]. *)
Inductive chat_response :=
| StreamingResponse (content : chat_reply) (media_type : string)
| ChatResponse (response_content : string) (response_conversation_id : string).

(** A field annotated [str]: only a string validates. *)
Definition validate_str (j : json) : option string :=
  match j with
  | JStr s => Some s
  | _ => None
  end.

(** A key of a Python dictionary: [True] and [1], [False] and [0] are
    the same key; lists and dictionaries are unhashable. *)
Inductive dict_key :=
| KeyStr (s : string)
| KeyInt (n : Z)
| KeyNone.

Definition hashable (j : json) : result dict_key :=
  match j with
  | JStr s => Ok (KeyStr s)
  | JNum n => Ok (KeyInt n)
  | JBool b => Ok (KeyInt (if b then 1 else 0))
  | JNull => Ok KeyNone
  | JArr _ | JObj _ => Raise TypeError
  end.

#[global] Instance dict_key_eq_dec : EqDecision dict_key.
Proof. solve_decision. Defined.

#[global] Instance dict_key_countable : Countable dict_key.
Proof.
  refine (inj_countable'
    (λ k, match k with
          | KeyStr s => inl s
          | KeyInt n => inr (inl n)
          | KeyNone => inr (inr ())
          end)
    (λ x, match x with
          | inl s => KeyStr s
          | inr (inl n) => KeyInt n
          | inr (inr _) => KeyNone
          end) _).
  by intros [].
Defined.

(** The two clients [lifespan] creates and registers. *)
Inductive mcp_client := ums_mcp_client | duckduckgo_mcp_client.

Module App.

Section Handlers.

Context (isoformat : Z → string).
Context (py_repr : json → string).
(** The validation of a value that is not an integer for a field
    annotated [int]. *)
Context (lax_int : json → option Z).

Definition validate_int (j : json) : option Z :=
  match j with
  | JNum n => Some n
  | _ => lax_int j
  end.

(** [ConversationSummary(id=..., title=..., created_at=...,
    updated_at=..., message_count=...)] *)
Definition ConversationSummary_init (id title created_at updated_at
    message_count : json) : result ConversationSummary :=
  match validate_str id, validate_str title, validate_str created_at,
        validate_str updated_at, validate_int message_count with
  | Some i, Some t, Some c, Some u, Some n =>
      Ok (mkConversationSummary i t c u n)
  | _, _, _, _, _ => Raise ValidationError
  end.

(** [ChatResponse(content=..., conversation_id=...)] *)
Definition ChatResponse_init (content conversation_id : json)
  : result chat_response :=
  match validate_str content, validate_str conversation_id with
  | Some c, Some i => Ok (ChatResponse c i)
  | _, _ => Raise ValidationError
  end.

Definition not_initialized {A} : handler A :=
  λ db,
    (Failed (HTTPException 500 "Conversation manager is not initialized"),
     db).

Definition health (conversation_manager : option ConversationManager)
  : json :=
  JObj (<["status" := JStr "healthy"]>
       (<["conversation_manager_initialized" :=
            JBool (bool_decide (is_Some conversation_manager))]> ∅)).

Definition create_conversation
    (conversation_manager : option ConversationManager)
    (request : CreateConversationRequest) (uuid4 : string) (now1 now2 : Z)
  : handler ConversationSummary :=
  match conversation_manager with
  | None => not_initialized
  | Some _ =>
      await (create_conversation isoformat (request_title request) uuid4
               now1 now2) (λ conversation,
      evaluated
        (result_bind (subscript conversation "id") (λ _,
         result_bind (subscript conversation "id") (λ id,
         result_bind (subscript conversation "title") (λ title,
         result_bind (subscript conversation "created_at") (λ created_at,
         result_bind (subscript conversation "updated_at") (λ updated_at,
         result_bind (subscript conversation "messages") (λ messages,
         result_bind (py_len messages) (λ message_count,
         ConversationSummary_init id title created_at updated_at
           (JNum (Z.of_nat message_count)))))))))))
  end.

(** One element of the list comprehension of [get_conversations]. *)
Definition summary_model (conv : json) : result ConversationSummary :=
  result_bind (subscript conv "id") (λ id,
  result_bind (subscript conv "title") (λ title,
  result_bind (subscript conv "created_at") (λ created_at,
  result_bind (subscript conv "updated_at") (λ updated_at,
  result_bind (subscript conv "message_count") (λ message_count,
  ConversationSummary_init id title created_at updated_at message_count))))).

Definition get_conversations
    (conversation_manager : option ConversationManager)
  : handler (list ConversationSummary) :=
  match conversation_manager with
  | None => not_initialized
  | Some _ =>
      await list_conversations (λ conversations,
      evaluated (result_map summary_model conversations))
  end.

(** [json.loads] gives [None] for the text [null], which the handler
    cannot tell from a missing record. *)
Definition get_conversation
    (conversation_manager : option ConversationManager)
    (conversation_id : string) : handler json :=
  match conversation_manager with
  | None => not_initialized
  | Some _ =>
      await (get_conversation conversation_id) (λ conversation db,
      match conversation with
      | None | Some JNull =>
          (Failed (HTTPException 404 "Conversation not found"), db)
      | Some conversation => (Returned conversation, db)
      end)
  end.

Definition delete_conversation
    (conversation_manager : option ConversationManager)
    (conversation_id : string) : handler json :=
  match conversation_manager with
  | None => not_initialized
  | Some _ =>
      await (delete_conversation conversation_id) (λ deleted db,
      if deleted then
        (Returned (JObj {["message" :=
                            JStr "Conversation successfully deleted"]}), db)
      else (Failed (HTTPException 404 "Conversation not found"), db))
  end.

(** [result['content']] on what [ConversationManager.chat] returned:
    a generator cannot be subscripted. *)
Definition reply_item (reply : chat_reply) (k : string) : result json :=
  match reply with
  | Answer d => subscript d k
  | Streaming _ => Raise TypeError
  end.

Definition chat (conversation_manager : option ConversationManager)
    (conversation_id : string) (request : ChatRequest) (now1 now2 : Z)
  : handler chat_response :=
  match conversation_manager with
  | None => not_initialized
  | Some manager =>
      if request_stream request then
        await (chat isoformat py_repr (manager_dial_client manager)
                 (request_message request) conversation_id
                 (request_stream request) now1 now2) (λ result db,
        (Returned (StreamingResponse result "text/event-stream"), db))
      else
        await (chat isoformat py_repr (manager_dial_client manager)
                 (request_message request) conversation_id false now1 now2)
          (λ result,
        evaluated
          (result_bind (reply_item result "content") (λ content,
           result_bind (reply_item result "conversation_id")
             (λ conversation_id,
           ChatResponse_init content conversation_id))))
  end.

(** One of the two loops of [lifespan] over the tools of a client: the
    tool is appended to [tools] and its name is bound to the client in
    [tool_name_client_map]. *)
Fixpoint register_tools (client : mcp_client) (client_tools : list json)
    (tools : list json) (tool_name_client_map : gmap dict_key mcp_client)
  : result (list json * gmap dict_key mcp_client) :=
  match client_tools with
  | [] => Ok (tools, tool_name_client_map)
  | tool :: rest =>
      result_bind (subscript tool "function") (λ function,
      result_bind (subscript function "name") (λ name,
      result_bind (hashable name) (λ key,
      register_tools client rest (tools ++ [tool])
        (<[key := client]> tool_name_client_map))))
  end.

(** The tools and the map [lifespan] hands to the model client, from
    what the two clients answer to [get_tools]. *)
Definition lifespan_tools (ums_tools duckduckgo_tools : list json)
  : result (list json * gmap dict_key mcp_client) :=
  result_bind (register_tools ums_mcp_client ums_tools [] ∅) (λ state,
  register_tools duckduckgo_mcp_client duckduckgo_tools state.1 state.2).

End Handlers.

End App.

(** The document [create_conversation] builds. *)
Definition new_document (isoformat : Z → string) (title : option string)
    (uuid4 : string) (now : Z) : gmap string json :=
  <["id" := JStr uuid4]>
    (<["title" := dump_optional title]>
    (<["messages" := JArr []]>
    (<["created_at" := JStr (isoformat now)]>
    (<["updated_at" := JStr (isoformat now)]> ∅)))).

(** A store every record of which can be shown by the listing handler:
    identifier, title and both times are strings. *)
Definition presentable (db : redis) : Prop :=
  ∀ conversation_id v,
    db !! (CONVERSATION_PREFIX +:+ conversation_id) = Some v →
    ∃ m t c u l,
      v = RString (json_dumps (JObj m))
      ∧ m !! "id" = Some (JStr conversation_id)
      ∧ m !! "title" = Some (JStr t)
      ∧ m !! "created_at" = Some (JStr c)
      ∧ m !! "updated_at" = Some (JStr u)
      ∧ m !! "messages" = Some (JArr l).

(** The summary the listing handler returns shows the record stored for
    its identifier. *)
Definition presents (db : redis) (s : ConversationSummary) : Prop :=
  ∃ m l,
    db !! (CONVERSATION_PREFIX +:+ cs_id s)
      = Some (RString (json_dumps (JObj m)))
    ∧ m !! "title" = Some (JStr (cs_title s))
    ∧ m !! "created_at" = Some (JStr (cs_created_at s))
    ∧ m !! "updated_at" = Some (JStr (cs_updated_at s))
    ∧ m !! "messages" = Some (JArr l)
    ∧ cs_message_count s = Z.of_nat (length l).

(** The key [lifespan] binds a tool under: [tool['function']['name']]. *)
Definition tool_key (tool : json) : result dict_key :=
  result_bind (subscript tool "function") (λ function,
  result_bind (subscript function "name") (λ name,
  hashable name)).

(** ** A small deployment

    Concrete inputs on which the statements below are exercised: a
    clock rendering, a client whose loop appends one assistant message
    (sent as two chunks when streaming), a client whose model call
    fails, and stores obtained by running the manager. *)

Definition sample_isoformat (now : Z) : string :=
  if Z.eqb now 1 then "2025-01-01T00:00:01+00:00"
  else if Z.eqb now 3 then "2025-01-01T00:00:03+00:00"
  else "2025-01-01T00:00:05+00:00".

Definition sample_repr (j : json) : string := "".

Definition sample_answer : Message :=
  mkMessage ASSISTANT (Some "There is one user: A") None None.

Definition sample_client : DialClient :=
  mkDialClient
    (λ messages, Ok (sample_answer, messages ++ [sample_answer]))
    (λ messages, (["There is one "; "user: A"], Ok (messages ++ [sample_answer]))).

Definition failing_client : DialClient :=
  mkDialClient
    (λ _, Raise (ClientError "model unavailable"))
    (λ _, ([], Raise (ClientError "model unavailable"))).

Definition sample_question : Message :=
  mkMessage USER (Some "list all users") None None.

(** An exchange with a tool call and its result. *)
Definition sample_exchange : list Message :=
  [ mkMessage SYSTEM (Some SYSTEM_PROMPT) None None;
    sample_question;
    mkMessage ASSISTANT None
      (Some [mkToolCall "call_1" "list_users" (JObj ∅)]) None;
    mkMessage TOOL (Some "[{id:1,name:A}]") None (Some "call_1");
    sample_answer ].

Definition store_one : redis :=
  (create_conversation sample_isoformat (Some "first") "c1" 1 2 ∅).2.

Definition store_two : redis :=
  (create_conversation sample_isoformat (Some "second") "c2" 3 4 store_one).2.

Definition store_three : redis :=
  (create_conversation sample_isoformat None "c3" 5 6 store_two).2.

(** The record of ["c2"] is deleted; its index entry stays. *)
Definition store_gap : redis := (delete_conversation "c2" store_three).2.

(** The only record is deleted while a turn is under way. *)
Definition store_gone : redis := (delete_conversation "c1" store_one).2.

(** The document of conversation ["c1"] in [store_one]. *)
Definition document_one : gmap string json :=
  <["id" := JStr "c1"]>
    (<["title" := JStr "first"]>
    (<["messages" := JArr []]>
    (<["created_at" := JStr "2025-01-01T00:00:01+00:00"]>
    (<["updated_at" := JStr "2025-01-01T00:00:01+00:00"]> ∅)))).

(** The message of a second turn. *)
Definition second_question : Message :=
  mkMessage USER (Some "is there a user B?") None None.

(** The store after a first turn on ["c1"], and the document that turn
    left. *)
Definition store_talked : redis :=
  (chat sample_isoformat sample_repr sample_client sample_question "c1"
     false 3 4 store_one).2.

Definition document_talked : gmap string json :=
  <["updated_at" := JStr "2025-01-01T00:00:03+00:00"]>
    (<["messages" :=
         JArr (model_dump
                 <$> [mkMessage SYSTEM (Some SYSTEM_PROMPT) None None;
                      sample_question; sample_answer])]> document_one).

(** The manager [lifespan] builds over the sample client. *)
Definition sample_manager : ConversationManager :=
  mkConversationManager sample_client.

(** An [int] field that takes integers only. *)
Definition sample_lax_int (j : json) : option Z := None.

(** A record under ["c7"] whose document carries the identifier
    ["c1"]. *)
Definition store_copy : redis :=
  <[CONVERSATION_PREFIX +:+ "c7"
      := RString (json_dumps (JObj document_one))]> store_one.

(** The document of ["c1"] without its ["messages"] field, and with a
    null one. *)
Definition store_no_messages : redis :=
  <[CONVERSATION_PREFIX +:+ "c1"
      := RString (json_dumps (JObj (delete "messages" document_one)))]>
    store_one.

Definition store_null_messages : redis :=
  <[CONVERSATION_PREFIX +:+ "c1"
      := RString (json_dumps (JObj (<["messages" := JNull]> document_one)))]>
    store_one.

(** The record of ["c1"] holds an empty object. *)
Definition store_empty_document : redis :=
  <[CONVERSATION_PREFIX +:+ "c1" := RString (json_dumps (JObj ∅))]>
    store_one.

(** A tool description as the MCP clients return it. *)
Definition sample_tool (name : string) : json :=
  JObj (<["type" := JStr "function"]>
       (<["function" := JObj (<["name" := JStr name]> ∅)]> ∅)).

Definition sample_ums_tools : list json :=
  [sample_tool "get_user_by_id"; sample_tool "search"].

Definition sample_duckduckgo_tools : list json :=
  [sample_tool "search"; sample_tool "fetch_content"].

(** * Properties *)

(** The prompt is the literal of [agent/prompts.py], character for
    character. *)
Example SYSTEM_PROMPT_length : String.length SYSTEM_PROMPT = 828%nat.
Proof. reflexivity. Qed.

(** ** Keys *)

Lemma conversation_key_not_list_key (conversation_id : string) :
  CONVERSATION_PREFIX +:+ conversation_id ≠ CONVERSATION_LIST_KEY.
Proof. unfold CONVERSATION_PREFIX, CONVERSATION_LIST_KEY. intros H. inversion H. Qed.

Lemma conversation_key_inj (a b : string) :
  CONVERSATION_PREFIX +:+ a = CONVERSATION_PREFIX +:+ b → a = b.
Proof. unfold CONVERSATION_PREFIX. intros H. by simplify_eq. Qed.

Lemma conversation_key_ne (a b : string) :
  a ≠ b → CONVERSATION_PREFIX +:+ a ≠ CONVERSATION_PREFIX +:+ b.
Proof. intros Hne Heq. apply Hne, conversation_key_inj, Heq. Qed.

(** ** The order of a sorted set *)

Lemma ascii_compare_N (a b : Ascii.ascii) :
  Ascii.compare a b = N.compare (Ascii.N_of_ascii a) (Ascii.N_of_ascii b).
Proof. reflexivity. Qed.

Lemma string_compare_refl (s : string) : String.compare s s = Eq.
Proof.
  induction s as [|c s IH]; simpl; [done|].
  rewrite ascii_compare_N, N.compare_refl. exact IH.
Qed.

Lemma string_compare_lt_trans (a b c : string) :
  String.compare a b = Lt → String.compare b c = Lt → String.compare a c = Lt.
Proof.
  revert b c. induction a as [|x a IH]; intros [|y b] [|z c]; simpl; try done.
  rewrite !ascii_compare_N.
  destruct (N.compare_spec (Ascii.N_of_ascii x) (Ascii.N_of_ascii y)) as [Hxy|Hxy|Hxy];
    destruct (N.compare_spec (Ascii.N_of_ascii y) (Ascii.N_of_ascii z)) as [Hyz|Hyz|Hyz];
    try done; intros Hab Hbc.
  - rewrite Hxy, Hyz, N.compare_refl. eauto.
  - rewrite Hxy. by apply N.compare_lt_iff in Hyz as ->.
  - rewrite <- Hyz. by apply N.compare_lt_iff in Hxy as ->.
  - assert (Ascii.N_of_ascii x < Ascii.N_of_ascii z)%N as Hxz by lia.
    by apply N.compare_lt_iff in Hxz as ->.
Qed.

Lemma string_leb_spec (a b : string) :
  String.leb a b = true ↔ String.compare a b = Lt ∨ a = b.
Proof.
  unfold String.leb. split.
  - destruct (String.compare a b) eqn:Hc; try done; intros _.
    + right. by apply String.compare_eq_iff.
    + by left.
  - intros [->| ->]; [done|]. by rewrite string_compare_refl.
Qed.

Lemma string_leb_trans (a b c : string) :
  String.leb a b = true → String.leb b c = true → String.leb a c = true.
Proof.
  rewrite !string_leb_spec. intros [Hab| ->] [Hbc| ->]; eauto.
  left. eapply string_compare_lt_trans; eauto.
Qed.

#[global] Instance zentry_le_trans : Transitive zentry_le.
Proof.
  intros [a x] [b y] [c z]. unfold zentry_le. simpl.
  intros [?|[? ?]] [?|[? ?]]; try (left; lia).
  right. split; [lia|]. eapply string_leb_trans; eauto.
Qed.

#[global] Instance zentry_le_total : Total zentry_le.
Proof.
  intros [a x] [b y]. unfold zentry_le. simpl.
  destruct (Z.lt_trichotomy x y) as [?|[->|?]]; [by left; left| |by right; left].
  destruct (String.leb_total a b); [left|right]; by right.
Qed.

#[global] Instance zentry_le_antisym : AntiSymm (=) zentry_le.
Proof.
  intros [a x] [b y]. unfold zentry_le. simpl.
  intros [?|[? ?]] [?|[? ?]]; try lia.
  f_equal; [|done]. by apply String.leb_antisym.
Qed.

(** ** Redis commands on a consistent store *)

Lemma zadd_index (db : redis) (member : string) (score : Z) :
  index_ok db →
  Redis.zadd CONVERSATION_LIST_KEY member score db =
    (Ok tt,
     <[CONVERSATION_LIST_KEY := RZSet (<[member := score]> (index db))]> db).
Proof.
  intros Hok. unfold Redis.zadd, index.
  destruct (db !! CONVERSATION_LIST_KEY) as [[t|z]|] eqn:Hdb; try done.
  by destruct (Hok t).
Qed.

Lemma zrevrange_index (db : redis) :
  index_ok db →
  Redis.zrevrange CONVERSATION_LIST_KEY db = (Ok (Redis.descending (index db)), db).
Proof.
  intros Hok. unfold Redis.zrevrange, index.
  destruct (db !! CONVERSATION_LIST_KEY) as [[t|z]|] eqn:Hdb; try done.
  by destruct (Hok t).
Qed.

Lemma index_insert_record (db : redis) (conversation_id : string) (v : rvalue) :
  index (<[CONVERSATION_PREFIX +:+ conversation_id := v]> db) = index db.
Proof.
  unfold index. by rewrite lookup_insert_ne by apply conversation_key_not_list_key.
Qed.

Lemma index_ok_insert_record (db : redis) (conversation_id : string) (v : rvalue) :
  index_ok db → index_ok (<[CONVERSATION_PREFIX +:+ conversation_id := v]> db).
Proof.
  intros Hok t. rewrite lookup_insert_ne by apply conversation_key_not_list_key.
  apply Hok.
Qed.

Section Properties.

Context (isoformat : Z → string).
Context (py_repr : json → string).
Context (dial_client : DialClient).

Lemma save_conversation_messages_ok (db : redis) (conversation_id : string)
    (m : gmap string json) (messages : list Message) (now1 now2 : Z) :
  index_ok db →
  db !! (CONVERSATION_PREFIX +:+ conversation_id)
    = Some (RString (json_dumps (JObj m))) →
  m !! "id" = Some (JStr conversation_id) →
  _save_conversation_messages isoformat py_repr conversation_id messages
      now1 now2 db
    = (Ok tt, after_save isoformat conversation_id m messages now1 now2 db).
Proof.
  intros Hix Hdb Hid.
  unfold _save_conversation_messages, _save_conversation, after_save, bind at 1.
  unfold Redis.get. rewrite Hdb. unfold bind, lift, Redis.set. simpl.
  rewrite !lookup_insert_ne by done. rewrite Hid. simpl.
  rewrite zadd_index by by apply index_ok_insert_record.
  by rewrite index_insert_record.
Qed.

Lemma save_conversation_messages_missing (db : redis) (conversation_id : string)
    (messages : list Message) (now1 now2 : Z) :
  db !! (CONVERSATION_PREFIX +:+ conversation_id) = None →
  _save_conversation_messages isoformat py_repr conversation_id messages
      now1 now2 db
    = (Raise TypeError, db).
Proof.
  intros Hdb. unfold _save_conversation_messages, bind at 1.
  unfold Redis.get. rewrite Hdb. reflexivity.
Qed.

Lemma create_conversation_ok (db : redis) (title : option string)
    (uuid4 : string) (now1 now2 : Z) :
  index_ok db →
  ∃ m,
    create_conversation isoformat title uuid4 now1 now2 db
      = (Ok (JObj m),
         <[CONVERSATION_LIST_KEY := RZSet (<[uuid4 := now2]> (index db))]>
           (<[CONVERSATION_PREFIX +:+ uuid4 := RString (json_dumps (JObj m))]> db))
    ∧ well_formed uuid4 m
    ∧ m !! "messages" = Some (JArr []).
Proof.
  intros Hix. eexists. split; [|split].
  - unfold create_conversation, bind, ret, Redis.set.
    rewrite zadd_index by by apply index_ok_insert_record.
    by rewrite index_insert_record.
  - unfold well_formed. rewrite lookup_insert_eq.
    repeat split; try (eexists; by simplify_map_eq).
  - by simplify_map_eq.
Qed.

(** *** Consistency is established and kept *)

Lemma consistent_empty : consistent ∅.
Proof. split; [intros t | intros c v]; by rewrite lookup_empty. Qed.

Lemma consistent_insert (db : redis) (conversation_id : string)
    (m : gmap string json) (z : gmap string Z) :
  consistent db →
  well_formed conversation_id m →
  consistent
    (<[CONVERSATION_LIST_KEY := RZSet z]>
       (<[CONVERSATION_PREFIX +:+ conversation_id
            := RString (json_dumps (JObj m))]> db)).
Proof.
  intros [Hix Hrec] Hwf. split.
  - intros t. by rewrite lookup_insert_eq.
  - intros c v. rewrite lookup_insert_ne
      by (apply not_eq_sym, conversation_key_not_list_key).
    destruct (decide (c = conversation_id)) as [->|Hne].
    + rewrite lookup_insert_eq. intros [= <-]. eauto.
    + rewrite lookup_insert_ne by (by apply conversation_key_ne). apply Hrec.
Qed.

Lemma consistent_create (db : redis) (title : option string) (uuid4 : string)
    (now1 now2 : Z) :
  consistent db →
  consistent (create_conversation isoformat title uuid4 now1 now2 db).2.
Proof.
  intros Hc. destruct (create_conversation_ok db title uuid4 now1 now2)
    as (m & -> & Hwf & _); [apply Hc|].
  by apply consistent_insert.
Qed.

Lemma consistent_delete (db : redis) (conversation_id : string) :
  consistent db → consistent (delete_conversation conversation_id db).2.
Proof.
  intros [Hix Hrec]. unfold delete_conversation, bind, ret, Redis.delete.
  destruct (db !! (CONVERSATION_PREFIX +:+ conversation_id)) eqn:Hdb;
    simpl; [|by split].
  split.
  - intros t. rewrite lookup_delete_ne by apply conversation_key_not_list_key.
    apply Hix.
  - intros c v. rewrite lookup_delete_Some. intros [_ Hv]. by apply Hrec.
Qed.

Lemma well_formed_saved (conversation_id : string) (m : gmap string json)
    (messages : list Message) (now : Z) :
  well_formed conversation_id m →
  well_formed conversation_id
    (<["updated_at" := JStr (isoformat now)]>
       (<["messages" := JArr (model_dump <$> messages)]> m)).
Proof.
  intros (Hid & Ht & _ & Hc & _). unfold well_formed.
  repeat split;
    rewrite ?lookup_insert_eq, ?lookup_insert_ne, ?lookup_insert_eq by done;
    eauto.
Qed.

Lemma consistent_save (db : redis) (conversation_id : string)
    (messages : list Message) (now1 now2 : Z) :
  consistent db →
  consistent (_save_conversation_messages isoformat py_repr conversation_id
                messages now1 now2 db).2.
Proof.
  intros Hc.
  destruct (db !! (CONVERSATION_PREFIX +:+ conversation_id)) as [v|] eqn:Hdb.
  - destruct (proj2 Hc _ _ Hdb) as (m & -> & Hwf).
    rewrite (save_conversation_messages_ok _ _ m) by (done || apply Hc || apply Hwf).
    apply consistent_insert; [done|]. by apply well_formed_saved.
  - by rewrite save_conversation_messages_missing.
Qed.

(** *** Dumping and validating messages *)

Lemma role_of_value_role_value (r : Role) : role_of_value (role_value r) = Some r.
Proof. by destruct r. Qed.

Lemma validate_tool_call_dump (tc : ToolCall) :
  validate_tool_call (dump_tool_call tc) = Ok tc.
Proof.
  destruct tc as [i n a]. unfold validate_tool_call, dump_tool_call. simpl.
  rewrite lookup_insert_eq.
  rewrite lookup_insert_ne, lookup_insert_eq by done.
  by rewrite !lookup_insert_ne, lookup_insert_eq by done.
Qed.

Lemma result_map_fmap {A B : Type} (f : B → result A) (g : A → B) (l : list A) :
  (∀ x, f (g x) = Ok x) → result_map f (g <$> l) = Ok l.
Proof.
  intros Hfg. induction l as [|x l IH]; [done|].
  rewrite fmap_cons. cbn [result_map]. by rewrite Hfg, IH.
Qed.

Lemma Message_init_model_dump (msg : Message) :
  Message_init (model_dump msg) = Ok msg.
Proof.
  destruct msg as [r c tcs tci].
  unfold Message_init, model_dump, validate_role, validate_tool_calls,
    optional_field. simpl.
  rewrite lookup_insert_eq, role_of_value_role_value. simpl.
  rewrite lookup_insert_ne, lookup_insert_eq by done.
  rewrite !(lookup_insert_ne _ _ "tool_calls"), lookup_insert_eq by done.
  rewrite !(lookup_insert_ne _ _ "tool_call_id"), lookup_insert_eq by done.
  destruct c as [c|], tcs as [tcs|], tci as [tci|]; simpl;
    rewrite ?(result_map_fmap _ _ _ validate_tool_call_dump); done.
Qed.

Lemma typed_messages_dumped (m : gmap string json) (messages : list Message) :
  m !! "messages" = Some (JArr (model_dump <$> messages)) →
  typed_messages (JObj m) = Ok messages.
Proof.
  intros Hm. unfold typed_messages. simpl. rewrite Hm. simpl.
  apply result_map_fmap, Message_init_model_dump.
Qed.

(** *** Loading a conversation *)

Lemma get_conversation_present (db : redis) (conversation_id : string)
    (conversation : json) :
  db !! (CONVERSATION_PREFIX +:+ conversation_id)
    = Some (RString (json_dumps conversation)) →
  get_conversation conversation_id db = (Ok (Some conversation), db).
Proof.
  intros Hdb. unfold get_conversation, bind, Redis.get. by rewrite Hdb.
Qed.

Lemma get_conversation_absent (db : redis) (conversation_id : string) :
  db !! (CONVERSATION_PREFIX +:+ conversation_id) = None →
  get_conversation conversation_id db = (Ok None, db).
Proof.
  intros Hdb. unfold get_conversation, bind, Redis.get. by rewrite Hdb.
Qed.

Lemma truthy_document (m : gmap string json) (k : string) :
  is_Some (m !! k) → truthy (JObj m) = true.
Proof.
  intros [v Hv]. simpl. destruct (size m) eqn:Hsize; [|done].
  apply map_size_empty_iff in Hsize. by rewrite Hsize, lookup_empty in Hv.
Qed.

(** [chat] up to the call of the agent loop, for a stored document whose
    messages validate. *)
Lemma chat_loaded (db : redis) (user_message : Message)
    (conversation_id : string) (stream : bool) (now1 now2 : Z)
    (conversation : json) (history : list Message) :
  db !! (CONVERSATION_PREFIX +:+ conversation_id)
    = Some (RString (json_dumps conversation)) →
  truthy conversation = true →
  typed_messages conversation = Ok history →
  chat isoformat py_repr dial_client user_message conversation_id stream
      now1 now2 db
    = if stream then
        (Ok (Streaming (Created conversation_id
                          (turn_messages history user_message))), db)
      else
        bind (_non_stream_chat isoformat py_repr dial_client conversation_id
                (turn_messages history user_message) now1 now2)
             (λ d, ret (Answer d)) db.
Proof.
  intros Hdb Htrue Hhist. unfold chat, bind at 1.
  rewrite (get_conversation_present _ _ _ Hdb), Htrue.
  unfold bind at 1. unfold lift at 1. rewrite Hhist.
  by destruct stream.
Qed.

Lemma persisted_after_save (db : redis) (conversation_id : string)
    (m : gmap string json) (messages : list Message) (now1 now2 : Z) :
  persisted_messages
    (after_save isoformat conversation_id m messages now1 now2 db)
    conversation_id = Some messages.
Proof.
  unfold persisted_messages, after_save.
  erewrite get_conversation_present; last first.
  { rewrite lookup_insert_ne
      by (apply not_eq_sym, conversation_key_not_list_key).
    apply lookup_insert_eq. }
  erewrite typed_messages_dumped; [done|].
  by rewrite lookup_insert_ne, lookup_insert_eq by done.
Qed.

Lemma non_stream_chat_ok (db : redis) (conversation_id : string)
    (m : gmap string json) (messages final : list Message) (ai : Message)
    (now1 now2 : Z) :
  index_ok db →
  db !! (CONVERSATION_PREFIX +:+ conversation_id)
    = Some (RString (json_dumps (JObj m))) →
  m !! "id" = Some (JStr conversation_id) →
  response dial_client messages = Ok (ai, final) →
  _non_stream_chat isoformat py_repr dial_client conversation_id messages
      now1 now2 db
    = (Ok (JObj (<["content" := JStr (default "" (content ai))]>
                (<["conversation_id" := JStr conversation_id]> ∅))),
       after_save isoformat conversation_id m final now1 now2 db).
Proof.
  intros Hix Hdb Hid Hresp. unfold _non_stream_chat, bind at 1.
  unfold lift at 1. rewrite Hresp. unfold bind.
  by rewrite (save_conversation_messages_ok _ _ m).
Qed.

Lemma delete_conversation_removes (db : redis) (conversation_id : string) :
  (delete_conversation conversation_id db).2
    !! (CONVERSATION_PREFIX +:+ conversation_id) = None.
Proof.
  unfold delete_conversation, bind, ret, Redis.delete.
  destruct (db !! (CONVERSATION_PREFIX +:+ conversation_id)) eqn:Hdb; simpl;
    [apply lookup_delete_eq | done].
Qed.

(** ** The claims about [chat] and [delete_conversation] *)

(** C2: for an identifier that has no record in the store, [chat]
    (streaming or not) raises the not-found error, the [ValueError]
    "No conversation found with id: ..." of the source; it returns no
    result and the store is left as it was. *)
Theorem chat_without_record_fails (db : redis) (user_message : Message)
    (conversation_id : string) (stream : bool) (now1 now2 : Z) :
  db !! (CONVERSATION_PREFIX +:+ conversation_id) = None →
  chat isoformat py_repr dial_client user_message conversation_id stream
      now1 now2 db
    = (Raise (ValueError ("No conversation found with id: "
                          +:+ conversation_id)), db).
Proof.
  intros Hdb. unfold chat, bind.
  by rewrite (get_conversation_absent _ _ Hdb).
Qed.

(** C4: when the model call of a non-streaming turn raises, [chat] ends
    with that exception and the store is the one it started from: the
    record, its [updated_at] and the index entry are untouched. *)
Theorem failed_model_call_persists_nothing (db : redis)
    (user_message : Message) (conversation_id : string) (now1 now2 : Z)
    (conversation : json) (history : list Message) (e : exn) :
  db !! (CONVERSATION_PREFIX +:+ conversation_id)
    = Some (RString (json_dumps conversation)) →
  truthy conversation = true →
  typed_messages conversation = Ok history →
  response dial_client (turn_messages history user_message) = Raise e →
  chat isoformat py_repr dial_client user_message conversation_id false
      now1 now2 db
    = (Raise e, db).
Proof.
  intros Hdb Htrue Hhist Hresp.
  rewrite (chat_loaded _ _ _ _ _ _ _ _ Hdb Htrue Hhist).
  unfold bind, _non_stream_chat, lift. by rewrite Hresp.
Qed.

(** C8: [delete_conversation] never raises; it returns [True] exactly
    when the key of the conversation held a record, and afterwards the
    key holds none.  Hence, on an existing conversation, a first call
    returns [True] and a second call returns [False]. *)
Theorem delete_conversation_reports_existence (db : redis)
    (conversation_id : string) :
  ∃ (existed : bool) (db' : redis),
    delete_conversation conversation_id db = (Ok existed, db')
    ∧ (existed = true
       ↔ is_Some (db !! (CONVERSATION_PREFIX +:+ conversation_id)))
    ∧ db' !! (CONVERSATION_PREFIX +:+ conversation_id) = None
    ∧ delete_conversation conversation_id db' = (Ok false, db').
Proof.
  unfold delete_conversation, bind, ret, Redis.delete.
  destruct (db !! (CONVERSATION_PREFIX +:+ conversation_id)) as [v|] eqn:Hdb.
  - exists true, (delete (CONVERSATION_PREFIX +:+ conversation_id) db).
    rewrite lookup_delete_eq. repeat split; eauto.
  - exists false, db. rewrite Hdb. repeat split; try done.
Qed.

(** C9: [delete_conversation] changes nothing but the key
    ["conversation:" + id]: the sorted set under [CONVERSATION_LIST_KEY]
    is the same afterwards, so [zrevrange] answers as before and an
    identifier that was in the index is still in it, with its score. *)
Theorem delete_conversation_keeps_index (db : redis)
    (conversation_id : string) :
  (∀ key, key ≠ CONVERSATION_PREFIX +:+ conversation_id →
     (delete_conversation conversation_id db).2 !! key = db !! key)
  ∧ (delete_conversation conversation_id db).2 !! CONVERSATION_LIST_KEY
      = db !! CONVERSATION_LIST_KEY
  ∧ (Redis.zrevrange CONVERSATION_LIST_KEY
       (delete_conversation conversation_id db).2).1
      = (Redis.zrevrange CONVERSATION_LIST_KEY db).1
  ∧ (∀ score, index db !! conversation_id = Some score →
       index (delete_conversation conversation_id db).2 !! conversation_id
         = Some score).
Proof.
  assert (∀ key, key ≠ CONVERSATION_PREFIX +:+ conversation_id →
    (delete_conversation conversation_id db).2 !! key = db !! key) as Hframe.
  { intros key Hkey. unfold delete_conversation, bind, ret, Redis.delete.
    destruct (db !! (CONVERSATION_PREFIX +:+ conversation_id)); simpl;
      [by rewrite lookup_delete_ne | done]. }
  assert ((delete_conversation conversation_id db).2 !! CONVERSATION_LIST_KEY
            = db !! CONVERSATION_LIST_KEY) as Hlist.
  { apply Hframe, not_eq_sym, conversation_key_not_list_key. }
  repeat split; [done..| |].
  - unfold Redis.zrevrange. rewrite Hlist.
    by destruct (db !! CONVERSATION_LIST_KEY) as [[?|?]|].
  - unfold index. by rewrite Hlist.
Qed.

(** ** The generator of [_stream_chat] *)

Lemma pull_add (a b : nat) (g : generator) (now1 now2 : Z) (db : redis) :
  pull isoformat py_repr dial_client (a + b) g now1 now2 db
    = let '(items1, g1, db1) :=
        pull isoformat py_repr dial_client a g now1 now2 db in
      let '(items2, g2, db2) :=
        pull isoformat py_repr dial_client b g1 now1 now2 db1 in
      (items1 ++ items2, g2, db2).
Proof.
  revert g db. induction a as [|a IH]; intros g db; simpl.
  - by destruct (pull _ _ _ b g now1 now2 db) as [[? ?] ?].
  - destruct (anext _ _ _ g now1 now2 db) as [[item g'] db'].
    rewrite IH.
    destruct (pull _ _ _ a g' now1 now2 db') as [[items1 g1] db1].
    by destruct (pull _ _ _ b g1 now1 now2 db1) as [[? ?] ?].
Qed.

Lemma pull_chunks (k : nat) (conversation_id : string) (pending : list string)
    (ending : result (list Message)) (now1 now2 : Z) (db : redis) :
  (k ≤ length pending)%nat →
  pull isoformat py_repr dial_client k
      (AtChunk conversation_id pending ending) now1 now2 db
    = (chunk_item <$> take k pending,
       AtChunk conversation_id (drop k pending) ending, db).
Proof.
  revert pending. induction k as [|k IH]; intros pending Hk; [done|].
  destruct pending as [|chunk pending]; simpl in Hk; [lia|].
  simpl. rewrite IH by lia. done.
Qed.

Lemma anext_at_frame (conversation_id : string) (messages : list Message)
    (now1 now2 : Z) (db : redis) :
  anext isoformat py_repr dial_client (AtFrame conversation_id messages)
      now1 now2 db
    = anext isoformat py_repr dial_client
        (AtChunk conversation_id (stream_response dial_client messages).1
           (stream_response dial_client messages).2) now1 now2 db.
Proof. simpl. by destruct (stream_response dial_client messages). Qed.

(** Through the identifier frame and the first [k] chunks nothing is
    written. *)
Lemma pull_created (k : nat) (conversation_id : string)
    (messages : list Message) (now1 now2 : Z) (db : redis) :
  (k ≤ length (stream_response dial_client messages).1)%nat →
  ∃ g',
    pull isoformat py_repr dial_client (S k)
        (Created conversation_id messages) now1 now2 db
      = (Ok (Some (identifier_frame conversation_id))
           :: (chunk_item <$> take k (stream_response dial_client messages).1),
         g', db)
    ∧ anext isoformat py_repr dial_client g' now1 now2 db
      = anext isoformat py_repr dial_client
          (AtChunk conversation_id
             (drop k (stream_response dial_client messages).1)
             (stream_response dial_client messages).2) now1 now2 db.
Proof.
  intros Hk. destruct k as [|k].
  - eexists. split; [reflexivity|]. rewrite drop_0. apply anext_at_frame.
  - eexists. split; [|reflexivity].
    change (pull isoformat py_repr dial_client (S (S k))
              (Created conversation_id messages) now1 now2 db)
      with (let '(items, g'', db'') :=
              pull isoformat py_repr dial_client (S k)
                (AtFrame conversation_id messages) now1 now2 db in
            (Ok (Some (identifier_frame conversation_id)) :: items, g'', db'')).
    assert (pull isoformat py_repr dial_client (S k)
              (AtFrame conversation_id messages) now1 now2 db
            = pull isoformat py_repr dial_client (S k)
                (AtChunk conversation_id
                   (stream_response dial_client messages).1
                   (stream_response dial_client messages).2) now1 now2 db)
      as ->.
    { cbn [pull]. by rewrite anext_at_frame. }
    by rewrite pull_chunks.
Qed.

Lemma anext_after_chunks (conversation_id : string)
    (ending : result (list Message)) (now1 now2 : Z) (db : redis) :
  anext isoformat py_repr dial_client (AtChunk conversation_id [] ending)
      now1 now2 db
    = match ending with
      | Ok final =>
          (end_of_stream
             (_save_conversation_messages isoformat py_repr conversation_id
                final now1 now2 db).1,
           Finished,
           (_save_conversation_messages isoformat py_repr conversation_id
              final now1 now2 db).2)
      | Raise e => (Raise e, Finished, db)
      end.
Proof.
  simpl. destruct ending as [final|e]; [|done].
  by destruct (_save_conversation_messages _ _ _ _ _ _ db) as [[[]|e] db'].
Qed.

(** A stream read to its end: the identifier frame, the chunks, and
    the outcome of the save, which is the only step that writes. *)
Lemma pull_to_end (db : redis) (conversation_id : string)
    (messages final : list Message) (chunks : list string) (now1 now2 : Z) :
  stream_response dial_client messages = (chunks, Ok final) →
  pull isoformat py_repr dial_client (S (S (length chunks)))
      (Created conversation_id messages) now1 now2 db
    = (Ok (Some (identifier_frame conversation_id))
         :: (chunk_item <$> chunks)
         ++ [end_of_stream
               (_save_conversation_messages isoformat py_repr conversation_id
                  final now1 now2 db).1],
       Finished,
       (_save_conversation_messages isoformat py_repr conversation_id
          final now1 now2 db).2).
Proof.
  intros Hstream.
  replace (S (S (length chunks))) with (S (length chunks) + 1)%nat by lia.
  rewrite pull_add.
  destruct (pull_created (length chunks) conversation_id messages now1 now2 db)
    as (g' & -> & Hnext); [by rewrite Hstream|].
  rewrite Hstream in Hnext |- *. cbn [fst snd] in Hnext |- *.
  rewrite firstn_all. rewrite drop_all, anext_after_chunks in Hnext.
  cbn [pull]. by rewrite Hnext.
Qed.

Lemma get_conversation_frame (db : redis) (conversation_id : string) :
  (get_conversation conversation_id db).2 = db.
Proof.
  unfold get_conversation, bind, Redis.get.
  by destruct (db !! (CONVERSATION_PREFIX +:+ conversation_id)) as [[[?]|?]|].
Qed.

Lemma chat_streaming_inv (db db' : redis) (user_message : Message)
    (conversation_id : string) (now1 now2 : Z) (g : generator) :
  chat isoformat py_repr dial_client user_message conversation_id true
      now1 now2 db = (Ok (Streaming g), db') →
  db' = db ∧
  ∃ history, g = Created conversation_id (turn_messages history user_message).
Proof.
  unfold chat, bind at 1.
  pose proof (get_conversation_frame db conversation_id) as Hframe.
  destruct (get_conversation conversation_id db) as [[[conversation|]|e] db0];
    simpl in Hframe; subst db0; [|done..].
  destruct (truthy conversation); [|done].
  unfold bind, lift, ret, _stream_chat.
  destruct (typed_messages conversation) as [history|e]; [|done].
  intros [= <- <-]. eauto.
Qed.

(** C5: the generator a streaming [chat] returns sends the frame with
    the conversation identifier as its first item, before any chunk of
    the model; the store is not written while the identifier frame and
    the chunks are sent, whatever the store and the clock are when the
    consumer asks; the save runs in the step that follows the last
    chunk; and on a store that holds the record of the conversation,
    reading the stream to its end leaves the list the loop of the client
    ended with as the persisted messages of the conversation. *)
Theorem stream_sends_identifier_first_and_saves_last (db db0 : redis)
    (user_message : Message) (conversation_id : string) (now1 now2 : Z)
    (g : generator) :
  chat isoformat py_repr dial_client user_message conversation_id true
      now1 now2 db = (Ok (Streaming g), db0) →
  db0 = db ∧
  ∃ messages,
    g = Created conversation_id messages ∧
    ∀ (now1' now2' : Z) (db1 : redis),
      anext isoformat py_repr dial_client g now1' now2' db1
        = (Ok (Some (identifier_frame conversation_id)),
           AtFrame conversation_id messages, db1)
      ∧ (∀ k, (k ≤ length (stream_response dial_client messages).1)%nat →
           ∃ g',
             pull isoformat py_repr dial_client (S k) g now1' now2' db1
               = (Ok (Some (identifier_frame conversation_id))
                    :: (chunk_item
                          <$> take k (stream_response dial_client messages).1),
                  g', db1))
      ∧ (∃ g',
          pull isoformat py_repr dial_client
              (S (length (stream_response dial_client messages).1)) g
              now1' now2' db1
            = (Ok (Some (identifier_frame conversation_id))
                 :: (chunk_item <$> (stream_response dial_client messages).1),
               g', db1)
          ∧ ∀ final,
              (stream_response dial_client messages).2 = Ok final →
              anext isoformat py_repr dial_client g' now1' now2' db1
                = (end_of_stream
                     (_save_conversation_messages isoformat py_repr
                        conversation_id final now1' now2' db1).1,
                   Finished,
                   (_save_conversation_messages isoformat py_repr
                      conversation_id final now1' now2' db1).2))
      ∧ (∀ m final,
           index_ok db1 →
           db1 !! (CONVERSATION_PREFIX +:+ conversation_id)
             = Some (RString (json_dumps (JObj m))) →
           m !! "id" = Some (JStr conversation_id) →
           (stream_response dial_client messages).2 = Ok final →
           ∃ db',
             pull isoformat py_repr dial_client
                 (S (S (length (stream_response dial_client messages).1))) g
                 now1' now2' db1
               = (Ok (Some (identifier_frame conversation_id))
                    :: (chunk_item
                          <$> (stream_response dial_client messages).1)
                    ++ [Ok None],
                  Finished, db')
             ∧ persisted_messages db' conversation_id = Some final
             ∧ db' !! (CONVERSATION_PREFIX +:+ conversation_id)
               = Some (RString (json_dumps (JObj
                   (<["updated_at" := JStr (isoformat now1')]>
                   (<["messages" := JArr (model_dump <$> final)]> m)))))).
Proof.
  intros Hchat. apply chat_streaming_inv in Hchat as (-> & history & ->).
  split; [done|]. eexists. split; [done|]. intros now1' now2' db1.
  split; [done|]. split; [|split].
  - intros k Hk.
    destruct (pull_created k conversation_id
                (turn_messages history user_message) now1' now2' db1 Hk)
      as (g' & Hpull & _).
    eauto.
  - destruct (pull_created (length (stream_response dial_client
                (turn_messages history user_message)).1) conversation_id
                (turn_messages history user_message) now1' now2' db1)
      as (g' & Hpull & Hnext); [done|].
    exists g'. rewrite firstn_all in Hpull. split; [done|].
    intros final Hfinal. rewrite Hnext, drop_all, anext_after_chunks.
    by rewrite Hfinal.
  - intros m final Hix Hdb Hid Hfinal.
    destruct (stream_response dial_client
                (turn_messages history user_message))
      as [chunks ending] eqn:Hstream.
    simpl in Hfinal. subst ending. cbn [fst].
    rewrite (pull_to_end _ _ _ _ _ _ _ Hstream).
    rewrite (save_conversation_messages_ok _ _ m) by done.
    cbn [fst snd].
    exists (after_save isoformat conversation_id m final now1' now2' db1).
    split; [reflexivity|].
    split; [apply persisted_after_save|].
    unfold after_save.
    rewrite lookup_insert_ne
      by (apply not_eq_sym, conversation_key_not_list_key).
    apply lookup_insert_eq.
Qed.

(** C10: the save presupposes the record.  On a store in which the
    key of the conversation holds nothing (the record was deleted after
    the turn loaded it), [_save_conversation_messages] raises the
    [TypeError] of [json.loads(None)] and writes nothing: the record is
    not created again and the turn does not end normally, neither the
    non-streaming one nor a stream that is read to its end, whose last
    item is the exception. *)
Theorem save_fails_without_record (db : redis) (conversation_id : string)
    (messages : list Message) (now1 now2 : Z) :
  db !! (CONVERSATION_PREFIX +:+ conversation_id) = None →
  _save_conversation_messages isoformat py_repr conversation_id messages
      now1 now2 db
    = (Raise TypeError, db)
  ∧ (∀ request ai,
       response dial_client request = Ok (ai, messages) →
       _non_stream_chat isoformat py_repr dial_client conversation_id
           request now1 now2 db
         = (Raise TypeError, db))
  ∧ (∀ request chunks,
       stream_response dial_client request = (chunks, Ok messages) →
       pull isoformat py_repr dial_client (S (S (length chunks)))
           (Created conversation_id request) now1 now2 db
         = (Ok (Some (identifier_frame conversation_id))
              :: (chunk_item <$> chunks) ++ [Raise TypeError],
            Finished, db)).
Proof.
  intros Hdb.
  pose proof (save_conversation_messages_missing db conversation_id messages
                now1 now2 Hdb) as Hsave.
  split; [done|]. split.
  - intros request ai Hresp. unfold _non_stream_chat, bind at 1.
    unfold lift at 1. rewrite Hresp. unfold bind. by rewrite Hsave.
  - intros request chunks Hstream.
    by rewrite (pull_to_end _ _ _ _ _ _ _ Hstream), Hsave.
Qed.

(** C3: for a conversation stored under its identifier and any list of
    messages, tool calls and tool call ids included, the save succeeds
    and what [chat] afterwards loads and validates is the saved list,
    element by element and in order. *)
Theorem save_then_reload_roundtrip (db : redis) (conversation_id : string)
    (m : gmap string json) (messages : list Message) (now1 now2 : Z) :
  index_ok db →
  db !! (CONVERSATION_PREFIX +:+ conversation_id)
    = Some (RString (json_dumps (JObj m))) →
  m !! "id" = Some (JStr conversation_id) →
  ∃ db',
    _save_conversation_messages isoformat py_repr conversation_id messages
        now1 now2 db
      = (Ok tt, db')
    ∧ persisted_messages db' conversation_id = Some messages
    ∧ ∀ user_message now1' now2',
        chat isoformat py_repr dial_client user_message conversation_id
            true now1' now2' db'
          = (Ok (Streaming (Created conversation_id
                              (turn_messages messages user_message))), db').
Proof.
  intros Hix Hdb Hid. eexists. split; [|split].
  - by apply save_conversation_messages_ok.
  - apply persisted_after_save.
  - intros user_message now1' now2'. unfold after_save.
    erewrite chat_loaded; [done| | |].
    + rewrite lookup_insert_ne
        by (apply not_eq_sym, conversation_key_not_list_key).
      apply lookup_insert_eq.
    + apply (truthy_document _ "updated_at"). by rewrite lookup_insert_eq.
    + apply typed_messages_dumped.
      by rewrite lookup_insert_ne, lookup_insert_eq by done.
Qed.

(** A stream that is read to its end saves the list the loop leaves. *)
Lemma pull_drained (db : redis) (conversation_id : string)
    (m : gmap string json) (messages final : list Message)
    (chunks : list string) (now1 now2 : Z) :
  index_ok db →
  db !! (CONVERSATION_PREFIX +:+ conversation_id)
    = Some (RString (json_dumps (JObj m))) →
  m !! "id" = Some (JStr conversation_id) →
  stream_response dial_client messages = (chunks, Ok final) →
  pull isoformat py_repr dial_client (S (S (length chunks)))
      (Created conversation_id messages) now1 now2 db
    = (Ok (Some (identifier_frame conversation_id))
         :: (chunk_item <$> chunks) ++ [Ok None],
       Finished,
       after_save isoformat conversation_id m final now1 now2 db).
Proof.
  intros Hix Hdb Hid Hstream.
  rewrite (pull_to_end _ _ _ _ _ _ _ Hstream).
  by rewrite (save_conversation_messages_ok _ _ m).
Qed.

(** C1: on a conversation whose stored message list is empty, [chat]
    hands the agent loop the system prompt followed by the user's
    message, and when the turn completes (the non-streaming call
    returns, the stream is read to its end) the persisted list starts
    with these two, followed by what the loop appended.  On a
    conversation with a non-empty history the list handed to the loop is
    the history followed by the user's message, with no system prompt
    added. *)
Theorem first_turn_is_seeded_with_system_prompt (db : redis)
    (user_message : Message) (conversation_id : string)
    (m : gmap string json) (now1 now2 : Z) :
  index_ok db →
  db !! (CONVERSATION_PREFIX +:+ conversation_id)
    = Some (RString (json_dumps (JObj m))) →
  m !! "id" = Some (JStr conversation_id) →
  (m !! "messages" = Some (JArr []) →
     chat isoformat py_repr dial_client user_message conversation_id true
         now1 now2 db
       = (Ok (Streaming (Created conversation_id
            [mkMessage SYSTEM (Some SYSTEM_PROMPT) None None; user_message])),
          db)
     ∧ (∀ chunks appended,
          stream_response dial_client
              [mkMessage SYSTEM (Some SYSTEM_PROMPT) None None; user_message]
            = (chunks,
               Ok ([mkMessage SYSTEM (Some SYSTEM_PROMPT) None None;
                    user_message] ++ appended)) →
          ∃ db',
            pull isoformat py_repr dial_client (S (S (length chunks)))
                (Created conversation_id
                   [mkMessage SYSTEM (Some SYSTEM_PROMPT) None None;
                    user_message]) now1 now2 db
              = (Ok (Some (identifier_frame conversation_id))
                   :: (chunk_item <$> chunks) ++ [Ok None], Finished, db')
            ∧ persisted_messages db' conversation_id
              = Some (mkMessage SYSTEM (Some SYSTEM_PROMPT) None None
                        :: user_message :: appended))
     ∧ (∀ ai appended,
          response dial_client
              [mkMessage SYSTEM (Some SYSTEM_PROMPT) None None; user_message]
            = Ok (ai,
                  [mkMessage SYSTEM (Some SYSTEM_PROMPT) None None;
                   user_message] ++ appended) →
          ∃ d db',
            chat isoformat py_repr dial_client user_message conversation_id
                false now1 now2 db
              = (Ok (Answer d), db')
            ∧ persisted_messages db' conversation_id
              = Some (mkMessage SYSTEM (Some SYSTEM_PROMPT) None None
                        :: user_message :: appended)))
  ∧ (∀ history,
       history ≠ [] →
       m !! "messages" = Some (JArr (model_dump <$> history)) →
       chat isoformat py_repr dial_client user_message conversation_id true
           now1 now2 db
         = (Ok (Streaming (Created conversation_id
                             (history ++ [user_message]))), db)
       ∧ (∀ ai final,
            response dial_client (history ++ [user_message]) = Ok (ai, final) →
            ∃ d db',
              chat isoformat py_repr dial_client user_message conversation_id
                  false now1 now2 db
                = (Ok (Answer d), db')
              ∧ persisted_messages db' conversation_id = Some final)).
Proof.
  intros Hix Hdb Hid.
  assert (truthy (JObj m) = true) as Htrue
    by (apply (truthy_document _ "id"); eauto).
  split.
  - intros Hempty.
    assert (typed_messages (JObj m) = Ok []) as Hhist
      by (by apply (typed_messages_dumped m [])).
    split; [|split].
    + by rewrite (chat_loaded _ _ _ _ _ _ _ _ Hdb Htrue Hhist).
    + intros chunks appended Hstream. eexists. split.
      * by apply (pull_drained _ _ m _ _ _ _ _ Hix Hdb Hid Hstream).
      * apply persisted_after_save.
    + intros ai appended Hresp.
      rewrite (chat_loaded _ _ _ _ _ _ _ _ Hdb Htrue Hhist).
      unfold bind. simpl turn_messages.
      rewrite (non_stream_chat_ok _ _ m _ _ _ _ _ Hix Hdb Hid Hresp).
      do 2 eexists. split; [reflexivity|]. apply persisted_after_save.
  - intros history Hne Hstored.
    assert (typed_messages (JObj m) = Ok history) as Hhist
      by (by apply typed_messages_dumped).
    assert (turn_messages history user_message = history ++ [user_message])
      as Hturn by (by destruct history).
    split.
    + by rewrite (chat_loaded _ _ _ _ _ _ _ _ Hdb Htrue Hhist), Hturn.
    + intros ai final Hresp.
      rewrite (chat_loaded _ _ _ _ _ _ _ _ Hdb Htrue Hhist), Hturn.
      unfold bind.
      rewrite (non_stream_chat_ok _ _ m _ _ _ _ _ Hix Hdb Hid Hresp).
      do 2 eexists. split; [reflexivity|]. apply persisted_after_save.
Qed.

(** ** The recency index and the listing *)

Lemma StronglySorted_filter {A : Type} (R : relation A) (P : A → Prop)
    `{∀ x, Decision (P x)} (l : list A) :
  StronglySorted R l → StronglySorted R (filter P l).
Proof.
  induction 1 as [|x l Hl IH Hx]; [constructor|].
  rewrite filter_cons. case_decide; [|done].
  constructor; [done|]. apply Forall_forall. intros y Hy.
  apply list_elem_of_filter in Hy as [_ Hy].
  rewrite Forall_forall in Hx. by apply Hx.
Qed.

Lemma StronglySorted_strengthen {A : Type} (R : relation A) (P : A → Prop)
    (l : list A) :
  Forall P l → StronglySorted R l →
  StronglySorted (λ x y, R x y ∧ P x ∧ P y) l.
Proof.
  intros HP. induction 1 as [|x l Hl IH Hx]; [constructor|].
  apply Forall_cons in HP as [Hpx HP].
  constructor; [by apply IH|].
  rewrite Forall_forall in Hx, HP |- *. intros y Hy. auto.
Qed.

Lemma elem_of_ascending (z : gmap string Z) (member : string) (score : Z) :
  (member, score) ∈ Redis.ascending z ↔ z !! member = Some score.
Proof.
  unfold Redis.ascending. rewrite merge_sort_Permutation.
  apply elem_of_map_to_list.
Qed.

Lemma elem_of_descending (z : gmap string Z) (member : string) :
  member ∈ Redis.descending z ↔ is_Some (z !! member).
Proof.
  unfold Redis.descending. rewrite list_elem_of_fmap. split.
  - intros ([m s] & -> & Hin). apply elem_of_reverse, elem_of_ascending in Hin.
    by exists s.
  - intros [s Hs]. exists (member, s). split; [done|].
    by apply elem_of_reverse, elem_of_ascending.
Qed.

(** ZREVRANGE answers from the highest score down. *)
Lemma descending_sorted (z : gmap string Z) :
  StronglySorted (not_older z) (Redis.descending z).
Proof.
  unfold Redis.descending.
  apply (StronglySorted_fmap fst
           (λ x y, flip zentry_le x y
                   ∧ z !! x.1 = Some x.2 ∧ z !! y.1 = Some y.2)).
  - intros [a sa] [b sb] (Hle & Ha & Hb). exists sa, sb.
    repeat split; [done..|]. unfold flip, zentry_le in Hle. simpl in *. lia.
  - apply (StronglySorted_strengthen _ (λ x, z !! x.1 = Some x.2)).
    + apply Forall_forall. intros [m s] Hin.
      by apply elem_of_reverse, elem_of_ascending in Hin.
    + apply Sorted_StronglySorted; [apply _|].
      apply Sorted_reverse, Sorted_merge_sort. apply _.
Qed.

Lemma summary_well_formed (conversation_id : string) (m : gmap string json) :
  well_formed conversation_id m →
  ∃ entry,
    summary (JObj m) = Ok entry
    ∧ summary_id entry = Ok (JStr conversation_id).
Proof.
  intros (Hid & [t Ht] & [l Hl] & [c Hc] & [u Hu]).
  unfold summary, subscript. rewrite Hid, Ht, Hc, Hu, Hl. simpl.
  eexists. split; [reflexivity|].
  unfold summary_id, subscript. by rewrite lookup_insert_eq.
Qed.

Lemma list_loop_spec (db : redis) (conversation_ids : list string)
    (conversations : list json) :
  records_ok db →
  ∃ entries,
    list_loop conversation_ids conversations db
      = (Ok (conversations ++ entries), db)
    ∧ summary_id <$> entries
      = (λ id, Ok (JStr id)) <$> filter (has_record db) conversation_ids.
Proof.
  intros Hrec. revert conversations.
  induction conversation_ids as [|id ids IH]; intros conversations.
  - exists []. by rewrite app_nil_r.
  - cbn [list_loop]. unfold bind at 1. unfold Redis.get.
    destruct (db !! (CONVERSATION_PREFIX +:+ id)) as [v|] eqn:Hdb.
    + destruct (Hrec _ _ Hdb) as (m & -> & Hwf).
      destruct (summary_well_formed _ _ Hwf) as (entry & Hsum & Hentry).
      unfold bind, lift. simpl. rewrite Hsum.
      destruct (IH (conversations ++ [entry])) as (entries & -> & Hids).
      exists (entry :: entries). split.
      * by rewrite <- app_assoc.
      * rewrite filter_cons_True by (unfold has_record; by rewrite Hdb).
        rewrite !fmap_cons. by rewrite Hentry, Hids.
    + destruct (IH conversations) as (entries & -> & Hids).
      exists entries. split; [done|].
      rewrite filter_cons_False; [done|].
      unfold has_record. rewrite Hdb. by intros [? ?].
Qed.

(** The loop only reads. *)
Lemma list_loop_frame (db : redis) (conversation_ids : list string)
    (conversations : list json) :
  (list_loop conversation_ids conversations db).2 = db.
Proof.
  revert conversations.
  induction conversation_ids as [|id ids IH]; intros conversations; [done|].
  cbn [list_loop]. unfold bind at 1. unfold Redis.get.
  destruct (db !! (CONVERSATION_PREFIX +:+ id)) as [[[conv]|z]|]; try done.
  unfold bind, lift. simpl. destruct (summary conv); [apply IH | done].
Qed.

(** Whenever the loop returns, on any store, it has summarised the
    identifiers that have a record, in order, and skipped the others. *)
Lemma list_loop_returns (db db' : redis) (conversation_ids : list string)
    (conversations out : list json) :
  list_loop conversation_ids conversations db = (Ok out, db') →
  ∃ entries,
    out = conversations ++ entries
    ∧ Forall2 (summarises db) (filter (has_record db) conversation_ids)
        entries.
Proof.
  revert conversations.
  induction conversation_ids as [|id ids IH]; intros conversations.
  - intros [= <- <-]. exists []. by rewrite app_nil_r.
  - cbn [list_loop]. unfold bind at 1. unfold Redis.get.
    destruct (db !! (CONVERSATION_PREFIX +:+ id)) as [[[conv]|z]|] eqn:Hdb;
      [| done |].
    + unfold bind, lift. simpl.
      destruct (summary conv) as [entry|e] eqn:Hsum; [|done].
      intros Hloop. destruct (IH _ Hloop) as (entries & -> & Hall).
      exists (entry :: entries). split; [by rewrite <- app_assoc|].
      rewrite filter_cons_True by (unfold has_record; by rewrite Hdb).
      constructor; [|done]. by exists conv.
    + intros Hloop. destruct (IH _ Hloop) as (entries & -> & Hall).
      exists entries. split; [done|].
      rewrite filter_cons_False; [done|].
      unfold has_record. rewrite Hdb. by intros [? ?].
Qed.

Lemma list_conversations_frame (db : redis) : (list_conversations db).2 = db.
Proof.
  unfold list_conversations, bind, Redis.zrevrange.
  destruct (db !! CONVERSATION_LIST_KEY) as [[t|z]|]; try done;
    apply list_loop_frame.
Qed.

Lemma list_conversations_returns (db db' : redis) (entries : list json) :
  list_conversations db = (Ok entries, db') →
  db' = db
  ∧ Forall2 (summarises db)
      (filter (has_record db) (Redis.descending (index db))) entries.
Proof.
  intros Hlist. split.
  { by rewrite <- (list_conversations_frame db), Hlist. }
  revert Hlist. unfold list_conversations, bind, Redis.zrevrange, index.
  destruct (db !! CONVERSATION_LIST_KEY) as [[t|z]|]; [done| |].
  - intros Hloop. by destruct (list_loop_returns _ _ _ _ _ Hloop) as (? & -> & ?).
  - intros [= <- <-]. constructor.
Qed.

Lemma list_conversations_spec (db : redis) :
  consistent db →
  ∃ entries,
    list_conversations db = (Ok entries, db)
    ∧ summary_id <$> entries
      = (λ id, Ok (JStr id))
          <$> filter (has_record db)
                (Redis.descending (index db)).
Proof.
  intros [Hix Hrec]. unfold list_conversations, bind.
  rewrite zrevrange_index by done.
  destruct (list_loop_spec db (Redis.descending (index db)) [] Hrec)
    as (entries & -> & Hids).
  eauto.
Qed.

Lemma index_insert_list (db : redis) (z : gmap string Z) :
  index (<[CONVERSATION_LIST_KEY := RZSet z]> db) = z.
Proof. unfold index. by rewrite lookup_insert_eq. Qed.

Lemma create_conversation_effects (db : redis) (title : option string)
    (uuid4 : string) (now1 now2 : Z) :
  index_ok db →
  index (create_conversation isoformat title uuid4 now1 now2 db).2
    = <[uuid4 := now2]> (index db)
  ∧ is_Some ((create_conversation isoformat title uuid4 now1 now2 db).2
               !! (CONVERSATION_PREFIX +:+ uuid4))
  ∧ (∀ other,
       is_Some (db !! (CONVERSATION_PREFIX +:+ other)) →
       is_Some ((create_conversation isoformat title uuid4 now1 now2 db).2
                  !! (CONVERSATION_PREFIX +:+ other))).
Proof.
  intros Hix.
  destruct (create_conversation_ok db title uuid4 now1 now2 Hix)
    as (m & -> & _ & _).
  cbn [snd]. split; [apply index_insert_list|].
  assert (∀ c v, <[CONVERSATION_LIST_KEY := v]> db
                   !! (CONVERSATION_PREFIX +:+ c)
                 = db !! (CONVERSATION_PREFIX +:+ c)) as Hskip.
  { intros c v. apply lookup_insert_ne, not_eq_sym,
      conversation_key_not_list_key. }
  split.
  - rewrite lookup_insert_ne
      by (apply not_eq_sym, conversation_key_not_list_key).
    rewrite lookup_insert_eq. eauto.
  - intros other Hother.
    rewrite lookup_insert_ne
      by (apply not_eq_sym, conversation_key_not_list_key).
    destruct (decide (uuid4 = other)) as [->|Hne].
    + rewrite lookup_insert_eq. eauto.
    + by rewrite lookup_insert_ne by (by apply conversation_key_ne).
Qed.

Lemma descending_three (u1 u2 u3 : string) (t1 t2 t3 : Z) :
  u1 ≠ u2 → u1 ≠ u3 → u2 ≠ u3 → t1 < t2 → t2 < t3 →
  Redis.descending (<[u3 := t3]> (<[u2 := t2]> (<[u1 := t1]> ∅)))
    = [u3; u2; u1].
Proof.
  intros H12 H13 H23 Ht12 Ht23. unfold Redis.descending.
  assert (Redis.ascending (<[u3 := t3]> (<[u2 := t2]> (<[u1 := t1]> ∅)))
          = [(u1, t1); (u2, t2); (u3, t3)]) as ->; [|done].
  apply (StronglySorted_unique zentry_le).
  - apply StronglySorted_merge_sort; apply _.
  - repeat constructor; unfold zentry_le; simpl; lia.
  - unfold Redis.ascending. rewrite merge_sort_Permutation.
    rewrite map_to_list_insert
      by (by rewrite !lookup_insert_ne, lookup_empty by done).
    rewrite map_to_list_insert
      by (by rewrite lookup_insert_ne, lookup_empty by done).
    rewrite map_to_list_insert by apply lookup_empty.
    rewrite map_to_list_empty.
    apply (reverse_Permutation [(u1, t1); (u2, t2); (u3, t3)]).
Qed.

(** ** The claims about [list_conversations] *)

(** C6: [list_conversations] returns the summaries in the order of the
    recency index, highest score first.  On any store whatsoever, a
    returned list summarises identifiers along which the scores of the
    index never increase; on every store the manager leaves the call
    does return, and the identifiers the summaries carry are in that
    order.  In particular, after three conversations are created on an
    empty store at increasing times, the listing gives the third, then
    the second, then the first. *)
Theorem list_conversations_most_recent_first :
  (∀ (db db' : redis) (entries : list json),
     list_conversations db = (Ok entries, db') →
     ∃ ids,
       Forall2 (summarises db) ids entries
       ∧ StronglySorted (not_older (index db)) ids)
  ∧ (∀ db : redis,
       consistent db →
       ∃ entries ids,
         list_conversations db = (Ok entries, db)
         ∧ summary_id <$> entries = (λ id, Ok (JStr id)) <$> ids
         ∧ StronglySorted (not_older (index db)) ids)
  ∧ (∀ (title1 title2 title3 : option string) (u1 u2 u3 : string)
       (a1 a2 a3 t1 t2 t3 : Z),
       u1 ≠ u2 → u1 ≠ u3 → u2 ≠ u3 → t1 < t2 → t2 < t3 →
       ∃ entries,
         (list_conversations
            (create_conversation isoformat title3 u3 a3 t3
               (create_conversation isoformat title2 u2 a2 t2
                  (create_conversation isoformat title1 u1 a1 t1 ∅).2).2).2).1
           = Ok entries
         ∧ summary_id <$> entries
           = [Ok (JStr u3); Ok (JStr u2); Ok (JStr u1)]).
Proof.
  split; [|split].
  - intros db db' entries Hlist.
    apply list_conversations_returns in Hlist as [_ Hall].
    eexists. split; [exact Hall|].
    apply StronglySorted_filter, descending_sorted.
  - intros db Hc.
    destruct (list_conversations_spec db Hc) as (entries & Hlist & Hids).
    eexists entries, _. split; [done|]. split; [done|].
    apply StronglySorted_filter, descending_sorted.
  - intros title1 title2 title3 u1 u2 u3 a1 a2 a3 t1 t2 t3
      H12 H13 H23 Ht12 Ht23.
    set (db1 := (create_conversation isoformat title1 u1 a1 t1 ∅).2).
    set (db2 := (create_conversation isoformat title2 u2 a2 t2 db1).2).
    set (db3 := (create_conversation isoformat title3 u3 a3 t3 db2).2).
    assert (consistent db1) as Hc1
      by apply consistent_create, consistent_empty.
    assert (consistent db2) as Hc2 by by apply consistent_create.
    assert (consistent db3) as Hc3 by by apply consistent_create.
    destruct (create_conversation_effects ∅ title1 u1 a1 t1)
      as (Hi1 & Hp1 & _); [apply consistent_empty|].
    destruct (create_conversation_effects db1 title2 u2 a2 t2)
      as (Hi2 & Hp2 & Hk2); [apply Hc1|].
    destruct (create_conversation_effects db2 title3 u3 a3 t3)
      as (Hi3 & Hp3 & Hk3); [apply Hc2|].
    fold db1 in Hi1, Hp1. fold db1 db2 in Hi2, Hp2, Hk2.
    fold db2 db3 in Hi3, Hp3, Hk3.
    destruct (list_conversations_spec db3 Hc3) as (entries & Hlist & Hids).
    exists entries. rewrite Hlist. split; [done|].
    rewrite Hids, Hi3, Hi2, Hi1.
    change (index ∅) with (∅ : gmap string Z).
    rewrite descending_three by done.
    rewrite !filter_cons_True by (unfold has_record; auto). done.
Qed.

(** C7: an identifier of the index whose record is missing is left out
    of the listing and causes no error.  On any store whatsoever, a
    returned list holds the summaries of exactly the indexed identifiers
    that have a record, in the order of the index, and the store is
    untouched; on every store the manager leaves the call does return,
    without the identifiers whose record is missing and with every other
    identifier of the index. *)
Theorem list_conversations_skips_missing_records :
  (∀ (db db' : redis) (entries : list json),
     list_conversations db = (Ok entries, db') →
     db' = db
     ∧ Forall2 (summarises db)
         (filter (has_record db) (Redis.descending (index db))) entries)
  ∧ (∀ db : redis,
       consistent db →
       ∃ entries,
         list_conversations db = (Ok entries, db)
         ∧ summary_id <$> entries
           = (λ id, Ok (JStr id))
               <$> filter (has_record db) (Redis.descending (index db))
         ∧ ∀ conversation_id,
             is_Some (index db !! conversation_id) →
             (db !! (CONVERSATION_PREFIX +:+ conversation_id) = None →
                Ok (JStr conversation_id) ∉ (summary_id <$> entries))
             ∧ (has_record db conversation_id →
                Ok (JStr conversation_id) ∈ (summary_id <$> entries))).
Proof.
  split; [apply list_conversations_returns|].
  intros db Hc.
  destruct (list_conversations_spec db Hc) as (entries & Hlist & Hids).
  exists entries. split; [done|]. split; [done|].
  intros conversation_id Hindexed. rewrite Hids.
  assert (Inj (=) (=) (λ id : string, @Ok json (JStr id))) as Hinj
    by (intros a b [=]; done).
  rewrite (list_elem_of_fmap_inj (λ id : string, @Ok json (JStr id))).
  rewrite list_elem_of_filter, elem_of_descending. unfold has_record. split.
  - intros Hnone [Hsome _]. rewrite Hnone in Hsome. by destruct Hsome.
  - intros Hsome. done.
Qed.

(** ** Every store the manager leaves is consistent *)

Lemma consistent_anext (db : redis) (g : generator) (now1 now2 : Z) :
  consistent db →
  consistent (anext isoformat py_repr dial_client g now1 now2 db).2.
Proof.
  intros Hc.
  assert (∀ conversation_id pending ending,
            consistent (forward isoformat py_repr conversation_id pending
                          ending now1 now2 db).2) as Hforward.
  { intros conversation_id [|chunk pending] [final|e]; try done. simpl.
    pose proof (consistent_save db conversation_id final now1 now2 Hc) as Hs.
    by destruct (_save_conversation_messages _ _ _ _ _ _ db) as [[[]|?] ?]. }
  destruct g as [c ms|c ms|c pending ending|]; simpl; try done.
  by destruct (stream_response dial_client ms).
Qed.

Lemma consistent_chat (db : redis) (user_message : Message)
    (conversation_id : string) (stream : bool) (now1 now2 : Z) :
  consistent db →
  consistent (chat isoformat py_repr dial_client user_message conversation_id
                stream now1 now2 db).2.
Proof.
  intros Hc. unfold chat, bind at 1.
  pose proof (get_conversation_frame db conversation_id) as Hframe.
  destruct (get_conversation conversation_id db) as [[[conversation|]|e] db0];
    simpl in Hframe; subst db0; [|done..].
  destruct (truthy conversation); [|done].
  unfold bind at 1. unfold lift at 1.
  destruct (typed_messages conversation) as [history|e]; [|done].
  destruct stream; [done|].
  unfold bind at 1, _non_stream_chat, bind at 1. unfold lift at 1.
  destruct (response dial_client (turn_messages history user_message))
    as [[ai final]|e]; [|done].
  unfold bind at 1.
  pose proof (consistent_save db conversation_id final now1 now2 Hc) as Hs.
  by destruct (_save_conversation_messages _ _ _ _ _ _ db) as [[[]|?] ?].
Qed.

(** The invariant of the store.  Whatever sequence of operations of the
    manager (creations, listings, reads, deletions, turns, steps of
    streams, returning or raising) has run on an initially empty store,
    the list key holds no plain string, and every conversation key
    holds the dump of an object with the identifier of its key under
    ["id"], a title, a list under ["messages"] and both times. *)
Theorem reachable_consistent (db : redis) :
  reachable isoformat py_repr dial_client db → consistent db.
Proof.
  induction 1 as [|db title uuid4 now1 now2 _ IH|db _ IH
                  |db conversation_id _ IH|db conversation_id _ IH
                  |db user_message conversation_id stream now1 now2 _ IH
                  |db g now1 now2 _ IH].
  - apply consistent_empty.
  - by apply consistent_create.
  - destruct (list_conversations_spec db IH) as (entries & -> & _). done.
  - by rewrite get_conversation_frame.
  - by apply consistent_delete.
  - by apply consistent_chat.
  - by apply consistent_anext.
Qed.

End Properties.

(** ** The statements on the small deployment *)

Lemma consistent_store_three : consistent store_three.
Proof.
  unfold store_three, store_two, store_one.
  do 3 apply consistent_create. apply consistent_empty.
Qed.

Lemma index_ok_store_one : index_ok store_one.
Proof. apply (consistent_create sample_isoformat), consistent_empty. Qed.

Lemma store_one_record :
  store_one !! (CONVERSATION_PREFIX +:+ "c1")
    = Some (RString (json_dumps (JObj document_one))).
Proof. vm_compute. reflexivity. Qed.

Lemma consistent_store_one : consistent store_one.
Proof. apply (consistent_create sample_isoformat), consistent_empty. Qed.

Lemma consistent_store_two : consistent store_two.
Proof. apply (consistent_create sample_isoformat), consistent_store_one. Qed.

Lemma store_two_record :
  store_two !! (CONVERSATION_PREFIX +:+ "c1")
    = Some (RString (json_dumps (JObj document_one))).
Proof. vm_compute. reflexivity. Qed.

Lemma chat_without_record_fails_witness :
  store_one !! (CONVERSATION_PREFIX +:+ "c9") = None
  ∧ chat sample_isoformat sample_repr sample_client sample_question "c9"
        false 3 4 store_one
      = (Raise (ValueError "No conversation found with id: c9"), store_one).
Proof.
  split; [vm_compute; reflexivity|].
  apply (chat_without_record_fails sample_isoformat sample_repr sample_client
           store_one sample_question "c9" false 3 4).
  vm_compute. reflexivity.
Defined.

Lemma first_turn_is_seeded_with_system_prompt_witness :
  index_ok store_one
  ∧ store_one !! (CONVERSATION_PREFIX +:+ "c1")
      = Some (RString (json_dumps (JObj document_one)))
  ∧ document_one !! "id" = Some (JStr "c1")
  ∧ document_one !! "messages" = Some (JArr [])
  ∧ chat sample_isoformat sample_repr sample_client sample_question "c1"
        true 3 4 store_one
      = (Ok (Streaming (Created "c1"
           [mkMessage SYSTEM (Some SYSTEM_PROMPT) None None;
            sample_question])), store_one)
  ∧ persisted_messages
      (chat sample_isoformat sample_repr sample_client sample_question "c1"
         false 3 4 store_one).2 "c1"
      = Some [mkMessage SYSTEM (Some SYSTEM_PROMPT) None None;
              sample_question; sample_answer].
Proof.
  assert (document_one !! "id" = Some (JStr "c1")) as Hid
    by (vm_compute; reflexivity).
  assert (document_one !! "messages" = Some (JArr [])) as Hempty
    by (vm_compute; reflexivity).
  destruct (first_turn_is_seeded_with_system_prompt sample_isoformat
              sample_repr sample_client store_one sample_question "c1"
              document_one 3 4 index_ok_store_one store_one_record Hid)
    as [Hfirst _].
  destruct (Hfirst Hempty) as (Hstream & _ & Hreply).
  destruct (Hreply sample_answer [sample_answer] eq_refl)
    as (d & db' & Hchat & Hpersisted).
  split; [apply index_ok_store_one|]. split; [apply store_one_record|].
  split; [exact Hid|]. split; [exact Hempty|]. split; [exact Hstream|].
  by rewrite Hchat.
Defined.

Lemma save_then_reload_roundtrip_witness :
  index_ok store_one
  ∧ store_one !! (CONVERSATION_PREFIX +:+ "c1")
      = Some (RString (json_dumps (JObj document_one)))
  ∧ document_one !! "id" = Some (JStr "c1")
  ∧ (_save_conversation_messages sample_isoformat sample_repr "c1"
       sample_exchange 3 4 store_one).1 = Ok tt
  ∧ persisted_messages
      (_save_conversation_messages sample_isoformat sample_repr "c1"
         sample_exchange 3 4 store_one).2 "c1"
      = Some sample_exchange.
Proof.
  assert (document_one !! "id" = Some (JStr "c1")) as Hid
    by (vm_compute; reflexivity).
  destruct (save_then_reload_roundtrip sample_isoformat sample_repr
              sample_client store_one "c1" document_one sample_exchange 3 4
              index_ok_store_one store_one_record Hid)
    as (db' & Hsave & Hpersisted & _).
  rewrite Hsave.
  split; [apply index_ok_store_one|]. split; [apply store_one_record|].
  split; [exact Hid|]. split; [reflexivity|]. exact Hpersisted.
Defined.

Lemma failed_model_call_persists_nothing_witness :
  store_one !! (CONVERSATION_PREFIX +:+ "c1")
    = Some (RString (json_dumps (JObj document_one)))
  ∧ truthy (JObj document_one) = true
  ∧ typed_messages (JObj document_one) = Ok []
  ∧ response failing_client (turn_messages [] sample_question)
      = Raise (ClientError "model unavailable")
  ∧ chat sample_isoformat sample_repr failing_client sample_question "c1"
        false 3 4 store_one
      = (Raise (ClientError "model unavailable"), store_one).
Proof.
  assert (truthy (JObj document_one) = true) as Htrue
    by (vm_compute; reflexivity).
  assert (typed_messages (JObj document_one) = Ok []) as Hhistory
    by (vm_compute; reflexivity).
  split; [apply store_one_record|]. split; [exact Htrue|].
  split; [exact Hhistory|]. split; [reflexivity|].
  apply (failed_model_call_persists_nothing sample_isoformat sample_repr
           failing_client store_one sample_question "c1" 3 4
           (JObj document_one) [] (ClientError "model unavailable")
           store_one_record Htrue Hhistory eq_refl).
Defined.

Lemma save_fails_without_record_witness :
  store_gone !! (CONVERSATION_PREFIX +:+ "c1") = None
  ∧ _save_conversation_messages sample_isoformat sample_repr "c1"
        sample_exchange 3 4 store_gone
      = (Raise TypeError, store_gone)
  ∧ pull sample_isoformat sample_repr sample_client 4
        (Created "c1"
           [mkMessage SYSTEM (Some SYSTEM_PROMPT) None None; sample_question])
        3 4 store_gone
      = ([Ok (Some (identifier_frame "c1")); chunk_item "There is one ";
          chunk_item "user: A"; Raise TypeError],
         Finished, store_gone).
Proof.
  assert (store_gone !! (CONVERSATION_PREFIX +:+ "c1") = None) as Hgone
    by apply delete_conversation_removes.
  split; [exact Hgone|]. split.
  - apply (save_fails_without_record sample_isoformat sample_repr
             sample_client store_gone "c1" sample_exchange 3 4 Hgone).
  - apply (proj2 (proj2 (save_fails_without_record sample_isoformat
             sample_repr sample_client store_gone "c1"
             [mkMessage SYSTEM (Some SYSTEM_PROMPT) None None;
              sample_question; sample_answer] 3 4 Hgone))
             [mkMessage SYSTEM (Some SYSTEM_PROMPT) None None;
              sample_question]
             ["There is one "; "user: A"] eq_refl).
Defined.

Lemma stream_sends_identifier_first_and_saves_last_witness :
  chat sample_isoformat sample_repr sample_client sample_question "c1"
      true 3 4 store_one
    = (Ok (Streaming (Created "c1"
         [mkMessage SYSTEM (Some SYSTEM_PROMPT) None None; sample_question])),
       store_one)
  ∧ (∃ g',
      pull sample_isoformat sample_repr sample_client 3
          (Created "c1"
             [mkMessage SYSTEM (Some SYSTEM_PROMPT) None None;
              sample_question]) 5 6 store_two
        = ([Ok (Some (identifier_frame "c1"));
            chunk_item "There is one "; chunk_item "user: A"],
           g', store_two)
      ∧ (anext sample_isoformat sample_repr sample_client g' 5 6
           store_two).2
        = (_save_conversation_messages sample_isoformat sample_repr "c1"
             [mkMessage SYSTEM (Some SYSTEM_PROMPT) None None;
              sample_question; sample_answer] 5 6 store_two).2)
  ∧ persisted_messages store_two "c1" = Some []
  ∧ ∃ db',
      pull sample_isoformat sample_repr sample_client 4
          (Created "c1"
             [mkMessage SYSTEM (Some SYSTEM_PROMPT) None None;
              sample_question]) 5 6 store_two
        = ([Ok (Some (identifier_frame "c1"));
            chunk_item "There is one "; chunk_item "user: A"; Ok None],
           Finished, db')
      ∧ persisted_messages db' "c1"
        = Some [mkMessage SYSTEM (Some SYSTEM_PROMPT) None None;
                sample_question; sample_answer].
Proof.
  assert (chat sample_isoformat sample_repr sample_client sample_question
            "c1" true 3 4 store_one
          = (Ok (Streaming (Created "c1"
               [mkMessage SYSTEM (Some SYSTEM_PROMPT) None None;
                sample_question])), store_one)) as Hchat
    by (vm_compute; reflexivity).
  assert (document_one !! "id" = Some (JStr "c1")) as Hid
    by (vm_compute; reflexivity).
  split; [exact Hchat|].
  destruct (stream_sends_identifier_first_and_saves_last sample_isoformat
              sample_repr sample_client store_one store_one sample_question
              "c1" 3 4 _ Hchat)
    as (_ & messages & Hg & Hstream).
  injection Hg as <-.
  destruct (Hstream 5 6 store_two)
    as (_ & _ & (g' & Hpull & Hsave) & Hdrained).
  split.
  { exists g'. split; [exact Hpull|]. by rewrite (Hsave _ eq_refl). }
  split; [vm_compute; reflexivity|].
  destruct (Hdrained document_one
              [mkMessage SYSTEM (Some SYSTEM_PROMPT) None None;
               sample_question; sample_answer]
              (proj1 consistent_store_two) store_two_record Hid eq_refl)
    as (db' & Hall & Hpersisted & _).
  exists db'. split; [exact Hall|exact Hpersisted].
Defined.

Lemma list_conversations_most_recent_first_witness :
  consistent store_three
  ∧ ∃ entries,
      (list_conversations store_three).1 = Ok entries
      ∧ summary_id <$> entries
        = [Ok (JStr "c3"); Ok (JStr "c2"); Ok (JStr "c1")].
Proof.
  split; [apply consistent_store_three|].
  apply (proj2 (proj2 (list_conversations_most_recent_first sample_isoformat))
           (Some "first") (Some "second") None "c1" "c2" "c3" 1 3 5 2 4 6);
    done.
Defined.

Lemma list_conversations_skips_missing_records_witness :
  consistent store_gap
  ∧ is_Some (index store_gap !! "c2")
  ∧ store_gap !! (CONVERSATION_PREFIX +:+ "c2") = None
  ∧ ∃ entries,
      list_conversations store_gap = (Ok entries, store_gap)
      ∧ (Ok (JStr "c2") ∉ (summary_id <$> entries))
      ∧ Ok (JStr "c3") ∈ (summary_id <$> entries)
      ∧ Ok (JStr "c1") ∈ (summary_id <$> entries).
Proof.
  assert (consistent store_gap) as Hc
    by apply consistent_delete, consistent_store_three.
  assert (store_gap !! (CONVERSATION_PREFIX +:+ "c2") = None) as Hgap
    by apply delete_conversation_removes.
  split; [exact Hc|]. split; [exists 4; vm_compute; reflexivity|].
  split; [exact Hgap|].
  destruct (proj2 list_conversations_skips_missing_records store_gap Hc)
    as (entries & Hlist & _ & Hmembers).
  exists entries. split; [exact Hlist|]. split; [|split].
  - apply (Hmembers "c2"); [exists 4; vm_compute; reflexivity | exact Hgap].
  - apply (Hmembers "c3"); eexists; vm_compute; reflexivity.
  - apply (Hmembers "c1"); eexists; vm_compute; reflexivity.
Defined.

Lemma delete_conversation_reports_existence_witness :
  delete_conversation "c1" store_one = (Ok true, store_gone)
  ∧ store_gone !! (CONVERSATION_PREFIX +:+ "c1") = None
  ∧ delete_conversation "c1" store_gone = (Ok false, store_gone).
Proof.
  destruct (delete_conversation_reports_existence store_one "c1")
    as (existed & db' & Hdelete & Hexisted & Hnone & Hagain).
  assert (db' = store_gone) as ->
    by (unfold store_gone; by rewrite Hdelete).
  assert (existed = true) as ->
    by (apply Hexisted; rewrite store_one_record; eauto).
  done.
Defined.

Lemma delete_conversation_keeps_index_witness :
  index store_one !! "c1" = Some 2
  ∧ store_gone !! (CONVERSATION_PREFIX +:+ "c1") = None
  ∧ index store_gone !! "c1" = Some 2
  ∧ (Redis.zrevrange CONVERSATION_LIST_KEY store_gone).1 = Ok ["c1"].
Proof.
  assert (index store_one !! "c1" = Some 2) as Hindexed
    by (vm_compute; reflexivity).
  destruct (delete_conversation_keeps_index store_one "c1")
    as (_ & _ & Hrange & Hentry).
  split; [exact Hindexed|].
  split; [apply delete_conversation_removes|].
  split; [exact (Hentry 2 Hindexed)|].
  unfold store_gone. rewrite Hrange. vm_compute. reflexivity.
Defined.

(** * Further properties of the manager *)

Section Coverage.

Context (isoformat : Z → string).
Context (py_repr : json → string).
Context (dial_client : DialClient).

(** ** Creating, reading *)

(** [create_conversation] (lines 47-59) and [get_conversation] (lines
    99-103): on a store whose list key holds no plain string, the
    creation returns a document with the given identifier and title, no
    messages and equal creation and update times; reading the
    identifier back gives that very document, the index holds the
    identifier with the second clock reading as score, and the records
    of all other conversations are as before. *)
Theorem create_conversation_then_get (db : redis) (title : option string)
    (uuid4 : string) (now1 now2 : Z) :
  index_ok db →
  ∃ conversation db',
    create_conversation isoformat title uuid4 now1 now2 db
      = (Ok conversation, db')
    ∧ get_conversation uuid4 db' = (Ok (Some conversation), db')
    ∧ subscript conversation "id" = Ok (JStr uuid4)
    ∧ subscript conversation "title" = Ok (dump_optional title)
    ∧ subscript conversation "messages" = Ok (JArr [])
    ∧ subscript conversation "created_at" = Ok (JStr (isoformat now1))
    ∧ subscript conversation "updated_at" = Ok (JStr (isoformat now1))
    ∧ persisted_messages db' uuid4 = Some []
    ∧ index db' = <[uuid4 := now2]> (index db)
    ∧ ∀ other,
        other ≠ uuid4 →
        db' !! (CONVERSATION_PREFIX +:+ other)
          = db !! (CONVERSATION_PREFIX +:+ other).
Proof.
  intros Hix.
  assert (create_conversation isoformat title uuid4 now1 now2 db
          = (Ok (JObj (<["id" := JStr uuid4]>
                      (<["title" := dump_optional title]>
                      (<["messages" := JArr []]>
                      (<["created_at" := JStr (isoformat now1)]>
                      (<["updated_at" := JStr (isoformat now1)]> ∅)))))),
             <[CONVERSATION_LIST_KEY
                 := RZSet (<[uuid4 := now2]> (index db))]>
               (<[CONVERSATION_PREFIX +:+ uuid4
                    := RString (json_dumps
                         (JObj (<["id" := JStr uuid4]>
                               (<["title" := dump_optional title]>
                               (<["messages" := JArr []]>
                               (<["created_at" := JStr (isoformat now1)]>
                               (<["updated_at" := JStr (isoformat now1)]>
                                  ∅)))))))]> db))) as Hcreate.
  { unfold create_conversation, bind, ret, Redis.set.
    rewrite zadd_index by by apply index_ok_insert_record.
    by rewrite index_insert_record. }
  do 2 eexists. split; [exact Hcreate|].
  assert (∀ v, (<[CONVERSATION_LIST_KEY := RZSet (<[uuid4 := now2]> (index db))]>
                 (<[CONVERSATION_PREFIX +:+ uuid4 := v]> db))
               !! (CONVERSATION_PREFIX +:+ uuid4) = Some v) as Hrecord.
  { intros v. rewrite lookup_insert_ne
      by (apply not_eq_sym, conversation_key_not_list_key).
    apply lookup_insert_eq. }
  split; [by apply get_conversation_present|].
  unfold subscript.
  rewrite lookup_insert_eq.
  rewrite !(lookup_insert_ne _ "id") by done. rewrite lookup_insert_eq.
  rewrite !(lookup_insert_ne _ "title") by done. rewrite lookup_insert_eq.
  rewrite !(lookup_insert_ne _ "messages") by done. rewrite lookup_insert_eq.
  rewrite !(lookup_insert_ne _ "created_at") by done. rewrite lookup_insert_eq.
  repeat (split; [done|]). split; [|split].
  - unfold persisted_messages.
    erewrite get_conversation_present by apply Hrecord.
    by erewrite (typed_messages_dumped _ []).
  - apply index_insert_list.
  - intros other Hother.
    rewrite lookup_insert_ne
      by (apply not_eq_sym, conversation_key_not_list_key).
    apply lookup_insert_ne. apply conversation_key_ne. congruence.
Qed.

(** [list_conversations] (lines 77-90) and [get_conversation] (lines
    99-103) only read: whatever the store holds and whether they return
    or raise, the store is the same afterwards. *)
Theorem reads_leave_the_store_unchanged (db : redis)
    (conversation_id : string) :
  (list_conversations db).2 = db
  ∧ (get_conversation conversation_id db).2 = db.
Proof.
  split; [apply list_conversations_frame | apply get_conversation_frame].
Qed.

(** ** Saving *)

Lemma save_conversation_messages_to (db : redis)
    (conversation_id target : string) (m : gmap string json)
    (messages : list Message) (now1 now2 : Z) :
  index_ok db →
  db !! (CONVERSATION_PREFIX +:+ conversation_id)
    = Some (RString (json_dumps (JObj m))) →
  m !! "id" = Some (JStr target) →
  _save_conversation_messages isoformat py_repr conversation_id messages
      now1 now2 db
    = (Ok tt,
       <[CONVERSATION_LIST_KEY := RZSet (<[target := now2]> (index db))]>
         (<[CONVERSATION_PREFIX +:+ target :=
              RString (json_dumps (JObj
                (<["updated_at" := JStr (isoformat now1)]>
                (<["messages" := JArr (model_dump <$> messages)]> m))))]>
            db)).
Proof.
  intros Hix Hdb Hid.
  unfold _save_conversation_messages, _save_conversation, bind at 1.
  unfold Redis.get. rewrite Hdb. unfold bind, lift, Redis.set. simpl.
  rewrite !lookup_insert_ne by done. rewrite Hid. simpl.
  rewrite zadd_index by by apply index_ok_insert_record.
  by rewrite index_insert_record.
Qed.

(** [_save_conversation_messages] (lines 193-197) with
    [_save_conversation] (lines 209-211): on the record of a
    conversation the save replaces the messages and the update time and
    nothing else of the document (identifier, title and creation time
    stay), sets the index score of the conversation to the second clock
    reading, and leaves the records of all other conversations as they
    were. *)
Theorem save_rewrites_messages_and_update_time (db : redis)
    (conversation_id : string) (m : gmap string json)
    (messages : list Message) (now1 now2 : Z) :
  index_ok db →
  db !! (CONVERSATION_PREFIX +:+ conversation_id)
    = Some (RString (json_dumps (JObj m))) →
  m !! "id" = Some (JStr conversation_id) →
  ∃ m' db',
    _save_conversation_messages isoformat py_repr conversation_id messages
        now1 now2 db
      = (Ok tt, db')
    ∧ db' !! (CONVERSATION_PREFIX +:+ conversation_id)
      = Some (RString (json_dumps (JObj m')))
    ∧ m' !! "messages" = Some (JArr (model_dump <$> messages))
    ∧ m' !! "updated_at" = Some (JStr (isoformat now1))
    ∧ (∀ k, k ≠ "messages" → k ≠ "updated_at" → m' !! k = m !! k)
    ∧ index db' = <[conversation_id := now2]> (index db)
    ∧ ∀ other,
        other ≠ conversation_id →
        db' !! (CONVERSATION_PREFIX +:+ other)
          = db !! (CONVERSATION_PREFIX +:+ other).
Proof.
  intros Hix Hdb Hid. do 2 eexists.
  split; [by apply (save_conversation_messages_to _ _ conversation_id m)|].
  split; [|split; [|split; [|split; [|split]]]].
  - rewrite lookup_insert_ne
      by (apply not_eq_sym, conversation_key_not_list_key).
    apply lookup_insert_eq.
  - by rewrite lookup_insert_ne, lookup_insert_eq by done.
  - apply lookup_insert_eq.
  - intros k Hk1 Hk2. by rewrite !lookup_insert_ne by done.
  - apply index_insert_list.
  - intros other Hother.
    rewrite lookup_insert_ne
      by (apply not_eq_sym, conversation_key_not_list_key).
    apply lookup_insert_ne, conversation_key_ne. congruence.
Qed.

(** [_save_conversation] (line 209) takes the key from the ["id"] field
    of the document, not from the identifier the document was loaded
    under: when a record holds a document whose ["id"] names another
    conversation, the save writes the new messages under that other
    key and index entry, and the record that was loaded stays as it
    was. *)
Theorem save_follows_the_id_of_the_document (db : redis)
    (conversation_id other : string) (m : gmap string json)
    (messages : list Message) (now1 now2 : Z) :
  index_ok db →
  db !! (CONVERSATION_PREFIX +:+ conversation_id)
    = Some (RString (json_dumps (JObj m))) →
  m !! "id" = Some (JStr other) →
  other ≠ conversation_id →
  ∃ db',
    _save_conversation_messages isoformat py_repr conversation_id messages
        now1 now2 db
      = (Ok tt, db')
    ∧ db' !! (CONVERSATION_PREFIX +:+ conversation_id)
      = db !! (CONVERSATION_PREFIX +:+ conversation_id)
    ∧ persisted_messages db' other = Some messages
    ∧ index db' = <[other := now2]> (index db).
Proof.
  intros Hix Hdb Hid Hother. eexists.
  split; [by apply (save_conversation_messages_to _ _ other m)|].
  split; [|split].
  - rewrite lookup_insert_ne
      by (apply not_eq_sym, conversation_key_not_list_key).
    apply lookup_insert_ne. by apply conversation_key_ne.
  - unfold persisted_messages.
    erewrite get_conversation_present; last first.
    { rewrite lookup_insert_ne
        by (apply not_eq_sym, conversation_key_not_list_key).
      apply lookup_insert_eq. }
    erewrite typed_messages_dumped; [done|].
    by rewrite lookup_insert_ne, lookup_insert_eq by done.
  - apply index_insert_list.
Qed.

(** ** The index only grows *)

Lemma index_kept_zadd (db : redis) (member id : string) (score : Z) :
  is_Some (index db !! id) →
  is_Some (index (Redis.zadd CONVERSATION_LIST_KEY member score db).2 !! id).
Proof.
  unfold Redis.zadd, index.
  destruct (db !! CONVERSATION_LIST_KEY) as [[t|z]|] eqn:Hdb; simpl;
    rewrite ?Hdb; try done.
  - rewrite lookup_insert_eq. intros [s Hs].
    destruct (decide (member = id)) as [->|Hne].
    + rewrite lookup_insert_eq. eauto.
    + rewrite lookup_insert_ne by done. eauto.
  - rewrite lookup_empty. by intros [? ?].
Qed.

Lemma index_kept_save (db : redis) (conversation_id id : string)
    (messages : list Message) (now1 now2 : Z) :
  is_Some (index db !! id) →
  is_Some (index (_save_conversation_messages isoformat py_repr
                    conversation_id messages now1 now2 db).2 !! id).
Proof.
  intros Hid. unfold _save_conversation_messages, bind at 1. unfold Redis.get.
  destruct (db !! (CONVERSATION_PREFIX +:+ conversation_id))
    as [[[conversation]|z]|]; try done.
  unfold bind at 1. unfold lift at 1. simpl.
  destruct conversation as [| | | | |m]; try done. simpl.
  unfold bind at 1. unfold lift at 1. simpl.
  unfold bind at 1. unfold lift at 1. simpl.
  unfold _save_conversation, bind at 1. unfold lift at 1. simpl.
  rewrite !lookup_insert_ne by done.
  destruct (m !! "id") as [target|]; [|done].
  unfold bind at 1, Redis.set. unfold bind at 1, lift at 1.
  destruct (zadd_member py_repr target) as [member|e]; simpl.
  - apply index_kept_zadd. by rewrite index_insert_record.
  - by rewrite index_insert_record.
Qed.

(** No operation of the manager removes an identifier from the recency
    index ([delete_conversation], line 110, deletes the record only;
    every other write to the index is the [zadd] of lines 57 and 211):
    an identifier that is in the index before a call of any operation,
    or a step of a stream, is in the index after it. *)
Theorem index_never_shrinks (db db' : redis) (id : string) :
  manager_step isoformat py_repr dial_client db db' →
  is_Some (index db !! id) →
  is_Some (index db' !! id).
Proof.
  intros Hstep Hid.
  destruct Hstep as [title uuid4 now1 now2| |conversation_id|conversation_id
                    |user_message conversation_id stream now1 now2
                    |g now1 now2].
  - unfold create_conversation, bind at 1, Redis.set. unfold bind at 1.
    pose proof (index_kept_zadd
      (<[CONVERSATION_PREFIX +:+ uuid4 := RString (json_dumps (JObj
          (<["id" := JStr uuid4]>
          (<["title" := dump_optional title]>
          (<["messages" := JArr []]>
          (<["created_at" := JStr (isoformat now1)]>
          (<["updated_at" := JStr (isoformat now1)]> ∅)))))))]> db)
      uuid4 id now2) as Hz.
    rewrite index_insert_record in Hz. specialize (Hz Hid).
    by destruct (Redis.zadd _ _ _ _) as [[[]|e] db1].
  - by rewrite list_conversations_frame.
  - by rewrite get_conversation_frame.
  - unfold delete_conversation, bind, ret, Redis.delete.
    destruct (db !! (CONVERSATION_PREFIX +:+ conversation_id)); simpl;
      [|done].
    unfold index.
    by rewrite lookup_delete_ne by apply conversation_key_not_list_key.
  - unfold chat, bind at 1.
    pose proof (get_conversation_frame db conversation_id) as Hframe.
    destruct (get_conversation conversation_id db)
      as [[[conversation|]|e] db0]; simpl in Hframe; subst db0; [|done..].
    destruct (truthy conversation); [|done].
    unfold bind at 1. unfold lift at 1.
    destruct (typed_messages conversation) as [history|e]; [|done].
    destruct stream; [done|].
    unfold bind at 1, _non_stream_chat, bind at 1. unfold lift at 1.
    destruct (response dial_client (turn_messages history user_message))
      as [[ai final]|e]; [|done].
    unfold bind at 1.
    pose proof (index_kept_save db conversation_id id final now1 now2 Hid)
      as Hs.
    by destruct (_save_conversation_messages _ _ _ _ _ _ db) as [[[]|?] ?].
  - assert (∀ conversation_id pending ending,
              is_Some (index (forward isoformat py_repr conversation_id
                                pending ending now1 now2 db).2 !! id))
      as Hforward.
    { intros conversation_id [|chunk pending] [final|e]; try done. simpl.
      pose proof (index_kept_save db conversation_id id final now1 now2 Hid)
        as Hs.
      by destruct (_save_conversation_messages _ _ _ _ _ _ db)
        as [[[]|?] ?]. }
    destruct g as [c ms|c ms|c pending ending|]; simpl; try done.
    by destruct (stream_response dial_client ms).
Qed.

(** ** What [chat] writes *)

(** [chat], case by case. *)
Lemma chat_cases (db : redis) (user_message : Message)
    (conversation_id : string) (stream : bool) (now1 now2 : Z) :
  chat isoformat py_repr dial_client user_message conversation_id stream
      now1 now2 db
    = match get_conversation conversation_id db with
      | (Ok (Some conversation), _) =>
          if truthy conversation then
            match typed_messages conversation with
            | Ok history =>
                if stream then
                  (Ok (Streaming (Created conversation_id
                                    (turn_messages history user_message))),
                   db)
                else
                  match response dial_client
                          (turn_messages history user_message) with
                  | Ok (ai, final) =>
                      match _save_conversation_messages isoformat py_repr
                              conversation_id final now1 now2 db with
                      | (Ok _, db') =>
                          (Ok (Answer
                             (JObj (<["content" :=
                                        JStr (default "" (content ai))]>
                                   (<["conversation_id" :=
                                        JStr conversation_id]> ∅)))), db')
                      | (Raise e, db') => (Raise e, db')
                      end
                  | Raise e => (Raise e, db)
                  end
            | Raise e => (Raise e, db)
            end
          else
            (Raise (ValueError ("No conversation found with id: "
                                +:+ conversation_id)), db)
      | (Ok None, _) =>
          (Raise (ValueError ("No conversation found with id: "
                              +:+ conversation_id)), db)
      | (Raise e, _) => (Raise e, db)
      end.
Proof.
  unfold chat, bind at 1.
  pose proof (get_conversation_frame db conversation_id) as Hframe.
  destruct (get_conversation conversation_id db)
    as [[[conversation|]|e] db0]; simpl in Hframe; subst db0; [|done..].
  destruct (truthy conversation); [|done].
  unfold bind at 1. unfold lift at 1.
  destruct (typed_messages conversation) as [history|e]; [|done].
  destruct stream; [done|].
  unfold bind at 1, _non_stream_chat, bind at 1. unfold lift at 1.
  destruct (response dial_client (turn_messages history user_message))
    as [[ai final]|e]; [|done].
  unfold bind, ret.
  by destruct (_save_conversation_messages _ _ _ _ _ _ db) as [[[]|?] ?].
Qed.

Lemma get_conversation_inv (db db0 : redis) (conversation_id : string)
    (conversation : json) :
  get_conversation conversation_id db = (Ok (Some conversation), db0) →
  db !! (CONVERSATION_PREFIX +:+ conversation_id)
    = Some (RString (json_dumps conversation)).
Proof.
  unfold get_conversation, bind, Redis.get.
  destruct (db !! (CONVERSATION_PREFIX +:+ conversation_id))
    as [[[j]|?]|]; [|done..].
  by intros [= <- _].
Qed.

(** [chat] (lines 132-142) writes the store only through the save that
    follows the agent loop.  A streaming call never writes; when it
    returns, the key of the conversation holds a document, the
    messages of that document validate to a history, and what is
    returned is the generator over that stored history (the system
    prompt in its place when it is empty) followed by the user's
    message.  A non-streaming call leaves either the store it found or
    the store of [_save_conversation_messages] on the list the loop
    left when called on that stored history followed by the user's
    message.  On a record whose ["messages"] is the dump of a list of
    messages, the history is that list. *)
Theorem chat_writes_only_through_the_save (db : redis)
    (user_message : Message) (conversation_id : string) (now1 now2 : Z) :
  (chat isoformat py_repr dial_client user_message conversation_id true
     now1 now2 db).2 = db
  ∧ (∀ reply,
       (chat isoformat py_repr dial_client user_message conversation_id true
          now1 now2 db).1 = Ok reply →
       ∃ conversation history,
         db !! (CONVERSATION_PREFIX +:+ conversation_id)
           = Some (RString (json_dumps conversation))
         ∧ typed_messages conversation = Ok history
         ∧ reply = Streaming (Created conversation_id
                                (turn_messages history user_message)))
  ∧ ((chat isoformat py_repr dial_client user_message conversation_id false
        now1 now2 db).2 = db
     ∨ ∃ conversation history ai final,
         db !! (CONVERSATION_PREFIX +:+ conversation_id)
           = Some (RString (json_dumps conversation))
         ∧ typed_messages conversation = Ok history
         ∧ response dial_client (turn_messages history user_message)
           = Ok (ai, final)
         ∧ (chat isoformat py_repr dial_client user_message conversation_id
              false now1 now2 db).2
           = (_save_conversation_messages isoformat py_repr conversation_id
                final now1 now2 db).2)
  ∧ (∀ m history,
       db !! (CONVERSATION_PREFIX +:+ conversation_id)
         = Some (RString (json_dumps (JObj m))) →
       m !! "messages" = Some (JArr (model_dump <$> history)) →
       chat isoformat py_repr dial_client user_message conversation_id true
           now1 now2 db
         = (Ok (Streaming (Created conversation_id
              (match history with
               | [] => [mkMessage SYSTEM (Some SYSTEM_PROMPT) None None]
               | _ => history
               end ++ [user_message]))), db)
       ∧ ∀ ai final,
           response dial_client
               (match history with
                | [] => [mkMessage SYSTEM (Some SYSTEM_PROMPT) None None]
                | _ => history
                end ++ [user_message])
             = Ok (ai, final) →
           (chat isoformat py_repr dial_client user_message conversation_id
              false now1 now2 db).2
           = (_save_conversation_messages isoformat py_repr conversation_id
                final now1 now2 db).2).
Proof.
  split; [|split; [|split]].
  - rewrite chat_cases.
    destruct (get_conversation conversation_id db)
      as [[[conversation|]|e] db0]; [|done..].
    destruct (truthy conversation); [|done].
    by destruct (typed_messages conversation).
  - rewrite chat_cases.
    destruct (get_conversation conversation_id db)
      as [[[conversation|]|e] db0] eqn:Hget; [|done..].
    apply get_conversation_inv in Hget.
    destruct (truthy conversation); [|done].
    destruct (typed_messages conversation) as [history|e] eqn:Hhistory;
      [|done].
    intros reply [= <-]. by exists conversation, history.
  - rewrite !chat_cases.
    destruct (get_conversation conversation_id db)
      as [[[conversation|]|e] db0] eqn:Hget; [|by left..].
    apply get_conversation_inv in Hget.
    destruct (truthy conversation); [|by left].
    destruct (typed_messages conversation) as [history|e] eqn:Hhistory;
      [|by left].
    destruct (response dial_client (turn_messages history user_message))
      as [[ai final]|e] eqn:Hresp; [|by left].
    right. exists conversation, history, ai, final.
    split; [done|]. split; [done|]. split; [done|].
    by destruct (_save_conversation_messages _ _ _ _ _ _ db) as [[[]|?] ?].
  - intros m history Hdb Hmessages.
    assert (truthy (JObj m) = true) as Htrue
      by (apply (truthy_document _ "messages"); eauto).
    pose proof (typed_messages_dumped m history Hmessages) as Hhistory.
    assert (turn_messages history user_message
            = match history with
              | [] => [mkMessage SYSTEM (Some SYSTEM_PROMPT) None None]
              | _ => history
              end ++ [user_message]) as Hturn
      by (by destruct history).
    rewrite !chat_cases, (get_conversation_present _ _ _ Hdb), Htrue,
      Hhistory, Hturn.
    split; [done|]. intros ai final ->.
    by destruct (_save_conversation_messages _ _ _ _ _ _ db) as [[[]|?] ?].
Qed.

(** ** A turn moves its conversation to the top of the listing *)

Lemma ascending_insert_max (z : gmap string Z) (member : string) (score : Z) :
  (∀ id s, z !! id = Some s → s < score) →
  Redis.ascending (<[member := score]> z)
    = Redis.ascending (delete member z) ++ [(member, score)].
Proof.
  intros Hmax. apply (StronglySorted_unique zentry_le).
  - apply StronglySorted_merge_sort; apply _.
  - apply StronglySorted_app_2.
    + intros [a sa] x2 Ha Hx2. apply list_elem_of_singleton in Hx2 as ->.
      apply elem_of_ascending, lookup_delete_Some in Ha as [_ Ha].
      left. simpl. by apply (Hmax a).
    + apply StronglySorted_merge_sort; apply _.
    + repeat constructor.
  - unfold Redis.ascending. rewrite !merge_sort_Permutation.
    rewrite <- insert_delete_eq.
    rewrite map_to_list_insert by apply lookup_delete_eq.
    apply Permutation_cons_append.
Qed.

Lemma descending_insert_max (z : gmap string Z) (member : string) (score : Z) :
  (∀ id s, z !! id = Some s → s < score) →
  Redis.descending (<[member := score]> z)
    = member :: Redis.descending (delete member z).
Proof.
  intros Hmax. unfold Redis.descending.
  by rewrite (ascending_insert_max _ _ _ Hmax), reverse_snoc.
Qed.

(** A non-streaming [chat] (lines 132-142, 174-179) whose second clock
    reading is later than every score of the index puts its
    conversation first in the next [list_conversations] (lines 77-90),
    with a message count equal to the length of the list the agent
    loop left. *)
Theorem chat_moves_conversation_to_top (db : redis) (user_message : Message)
    (conversation_id : string) (m : gmap string json)
    (history final : list Message) (ai : Message) (now1 now2 : Z) :
  consistent db →
  db !! (CONVERSATION_PREFIX +:+ conversation_id)
    = Some (RString (json_dumps (JObj m))) →
  typed_messages (JObj m) = Ok history →
  response dial_client (turn_messages history user_message)
    = Ok (ai, final) →
  (∀ id score, index db !! id = Some score → score < now2) →
  ∃ d db' entry entries,
    chat isoformat py_repr dial_client user_message conversation_id false
        now1 now2 db
      = (Ok (Answer d), db')
    ∧ list_conversations db' = (Ok (entry :: entries), db')
    ∧ summary_id entry = Ok (JStr conversation_id)
    ∧ summary_count entry = Ok (JNum (Z.of_nat (length final))).
Proof.
  intros [Hix Hrec] Hdb Hhistory Hresp Hmax.
  destruct (Hrec _ _ Hdb) as (m0 & [= <-] & Hwf).
  pose proof Hwf as (Hid & [t Ht] & _ & [c Hc] & _).
  assert (truthy (JObj m) = true) as Htrue
    by (apply (truthy_document _ "id"); eauto).
  rewrite (chat_loaded _ _ _ _ _ _ _ _ _ _ _ Hdb Htrue Hhistory).
  unfold bind.
  rewrite (non_stream_chat_ok _ _ _ _ _ m _ _ _ _ _ Hix Hdb Hid Hresp).
  set (db' := after_save isoformat conversation_id m final now1 now2 db).
  assert (consistent db') as Hc'.
  { apply consistent_insert; [done|]. by apply well_formed_saved. }
  assert (index db' = <[conversation_id := now2]> (index db)) as Hindex
    by apply index_insert_list.
  assert (db' !! (CONVERSATION_PREFIX +:+ conversation_id)
          = Some (RString (json_dumps (JObj
              (<["updated_at" := JStr (isoformat now1)]>
              (<["messages" := JArr (model_dump <$> final)]> m))))))
    as Hdb'.
  { unfold db', after_save. rewrite lookup_insert_ne
      by (apply not_eq_sym, conversation_key_not_list_key).
    apply lookup_insert_eq. }
  destruct (list_conversations_spec db' Hc') as (entries & Hlist & _).
  pose proof (list_conversations_returns _ _ _ Hlist) as [_ Hall].
  rewrite Hindex, (descending_insert_max _ _ _ Hmax) in Hall.
  rewrite filter_cons_True in Hall
    by (unfold has_record; rewrite Hdb'; eauto).
  apply Forall2_cons_inv_l in Hall
    as (entry & entries' & (conv & Hconv & Hsum) & _ & ->).
  rewrite Hdb' in Hconv. injection Hconv as <-.
  exists (JObj (<["content" := JStr (default "" (content ai))]>
               (<["conversation_id" := JStr conversation_id]> ∅))),
    db', entry, entries'.
  split; [done|]. split; [done|].
  revert Hsum. unfold summary, subscript.
  rewrite !(lookup_insert_ne _ _ "id"), Hid by done.
  rewrite !(lookup_insert_ne _ _ "title"), Ht by done.
  rewrite !(lookup_insert_ne _ _ "created_at"), Hc by done.
  rewrite lookup_insert_eq.
  rewrite lookup_insert_ne, lookup_insert_eq by done. simpl.
  intros [= <-]. unfold summary_id, summary_count, subscript.
  rewrite lookup_insert_eq.
  rewrite !(lookup_insert_ne _ _ "message_count"), lookup_insert_eq by done.
  by rewrite length_fmap.
Qed.

(** ** A stream that is asked beyond its end *)

Lemma pull_finished (k : nat) (now1 now2 : Z) (db : redis) :
  pull isoformat py_repr dial_client k Finished now1 now2 db
    = (replicate k (Ok None), Finished, db).
Proof. induction k as [|k IH]; [done|]. cbn [pull anext]. by rewrite IH. Qed.

(** The generator of [_stream_chat] (lines 157-160) runs its save once:
    a consumer that keeps asking after the end receives the identifier
    frame, the chunks, the outcome of the one save (or the exception
    that ended the client's generator, in which case nothing is saved)
    and from then on only the end of the iteration, and the store stays
    the one that step left. *)
Theorem exhausted_stream_saves_once (db : redis) (conversation_id : string)
    (messages : list Message) (chunks : list string)
    (ending : result (list Message)) (now1 now2 : Z) (k : nat) :
  stream_response dial_client messages = (chunks, ending) →
  pull isoformat py_repr dial_client (S (S (length chunks)) + k)
      (Created conversation_id messages) now1 now2 db
    = match ending with
      | Ok final =>
          (Ok (Some (identifier_frame conversation_id))
             :: (chunk_item <$> chunks)
             ++ end_of_stream
                  (_save_conversation_messages isoformat py_repr
                     conversation_id final now1 now2 db).1
             :: replicate k (Ok None),
           Finished,
           (_save_conversation_messages isoformat py_repr conversation_id
              final now1 now2 db).2)
      | Raise e =>
          (Ok (Some (identifier_frame conversation_id))
             :: (chunk_item <$> chunks) ++ Raise e :: replicate k (Ok None),
           Finished, db)
      end.
Proof.
  intros Hstream.
  replace (S (S (length chunks)) + k)%nat
    with (S (length chunks) + (1 + k))%nat by lia.
  rewrite pull_add.
  destruct (pull_created isoformat py_repr dial_client (length chunks)
              conversation_id messages now1 now2 db)
    as (g' & -> & Hnext); [by rewrite Hstream|].
  rewrite Hstream in Hnext |- *. cbn [fst snd] in Hnext |- *.
  rewrite firstn_all. rewrite drop_all, anext_after_chunks in Hnext.
  rewrite pull_add. cbn [pull]. rewrite Hnext.
  destruct ending as [final|e]; rewrite pull_finished; done.
Qed.

(** ** Deleting, then listing *)

(** [delete_conversation] (line 110) followed by [list_conversations]
    (lines 77-90): on a store the manager has left, the listing after a
    deletion is the listing before it without the deleted conversation,
    in the same order. *)
Theorem delete_then_list (db : redis) (conversation_id : string) :
  consistent db →
  ∃ entries entries' ids,
    list_conversations db = (Ok entries, db)
    ∧ summary_id <$> entries = (λ id, Ok (JStr id)) <$> ids
    ∧ list_conversations (delete_conversation conversation_id db).2
      = (Ok entries', (delete_conversation conversation_id db).2)
    ∧ summary_id <$> entries'
      = (λ id, Ok (JStr id)) <$> filter (λ id, id ≠ conversation_id) ids.
Proof.
  intros Hc.
  destruct (list_conversations_spec db Hc) as (entries & Hlist & Hids).
  destruct (list_conversations_spec _ (consistent_delete db conversation_id Hc))
    as (entries' & Hlist' & Hids').
  exists entries, entries', (filter (has_record db)
                               (Redis.descending (index db))).
  split; [done|]. split; [done|]. split; [done|].
  rewrite Hids'. f_equal.
  assert (index (delete_conversation conversation_id db).2 = index db) as ->.
  { unfold delete_conversation, bind, ret, Redis.delete, index.
    destruct (db !! (CONVERSATION_PREFIX +:+ conversation_id)); simpl;
      [|done].
    by rewrite lookup_delete_ne by apply conversation_key_not_list_key. }
  rewrite list_filter_filter. apply list_filter_iff. intros id.
  unfold has_record, delete_conversation, bind, ret, Redis.delete.
  destruct (db !! (CONVERSATION_PREFIX +:+ conversation_id)) eqn:Hdb; simpl.
  - destruct (decide (id = conversation_id)) as [->|Hne].
    + rewrite lookup_delete_eq. split; [by intros [? ?] | by intros [? _]].
    + rewrite lookup_delete_ne by (apply conversation_key_ne; congruence).
      tauto.
  - split; [|tauto]. intros Hsome. split; [|done].
    intros ->. rewrite Hdb in Hsome. by destruct Hsome.
Qed.

(** ** Documents [chat] does not expect *)

(** [chat], line 135: the history is read with
    [conversation.get("messages", [])].  A document without a
    ["messages"] field is a conversation without history (the first
    turn is seeded with the system prompt); a document whose
    ["messages"] is [null] makes [chat] raise the [TypeError] of the
    iteration, streaming or not, before anything is written. *)
Theorem chat_on_missing_or_null_messages (db : redis)
    (user_message : Message) (conversation_id : string)
    (m : gmap string json) (stream : bool) (now1 now2 : Z) :
  db !! (CONVERSATION_PREFIX +:+ conversation_id)
    = Some (RString (json_dumps (JObj m))) →
  truthy (JObj m) = true →
  (m !! "messages" = None →
     chat isoformat py_repr dial_client user_message conversation_id true
         now1 now2 db
       = (Ok (Streaming (Created conversation_id
            [mkMessage SYSTEM (Some SYSTEM_PROMPT) None None; user_message])),
          db))
  ∧ (m !! "messages" = Some JNull →
     chat isoformat py_repr dial_client user_message conversation_id stream
         now1 now2 db
       = (Raise TypeError, db)).
Proof.
  intros Hdb Htrue. rewrite !chat_cases.
  rewrite (get_conversation_present _ _ _ Hdb), Htrue.
  unfold typed_messages, dict_get.
  split; intros ->; done.
Qed.

(** [chat], lines 133-134, tests [if not conversation]: a record whose
    document is falsy (an empty object, for one) is reported as not
    found, with the store untouched, although [get_conversation]
    returns that document. *)
Theorem chat_takes_a_falsy_document_for_missing (db : redis)
    (user_message : Message) (conversation_id : string)
    (conversation : json) (stream : bool) (now1 now2 : Z) :
  db !! (CONVERSATION_PREFIX +:+ conversation_id)
    = Some (RString (json_dumps conversation)) →
  truthy conversation = false →
  get_conversation conversation_id db = (Ok (Some conversation), db)
  ∧ chat isoformat py_repr dial_client user_message conversation_id stream
        now1 now2 db
      = (Raise (ValueError ("No conversation found with id: "
                            +:+ conversation_id)), db).
Proof.
  intros Hdb Hfalse. rewrite chat_cases.
  by rewrite (get_conversation_present _ _ _ Hdb), Hfalse.
Qed.

End Coverage.

(** * Properties of the request handlers *)

Section Service.

Context (isoformat : Z → string).
Context (py_repr : json → string).
Context (lax_int : json → option Z).

Lemma create_conversation_eq (db : redis) (title : option string)
    (uuid4 : string) (now1 now2 : Z) :
  index_ok db →
  create_conversation isoformat title uuid4 now1 now2 db
    = (Ok (JObj (new_document isoformat title uuid4 now1)),
       <[CONVERSATION_LIST_KEY := RZSet (<[uuid4 := now2]> (index db))]>
         (<[CONVERSATION_PREFIX +:+ uuid4
              := RString (json_dumps
                            (JObj (new_document isoformat title uuid4 now1)))]>
            db)).
Proof.
  intros Hix. unfold create_conversation, bind, ret, Redis.set.
  rewrite zadd_index by by apply index_ok_insert_record.
  by rewrite index_insert_record.
Qed.

Lemma created_record (db : redis) (uuid4 : string) (v : rvalue)
    (z : gmap string Z) :
  (<[CONVERSATION_LIST_KEY := RZSet z]>
     (<[CONVERSATION_PREFIX +:+ uuid4 := v]> db))
    !! (CONVERSATION_PREFIX +:+ uuid4) = Some v.
Proof.
  rewrite lookup_insert_ne
    by (apply not_eq_sym, conversation_key_not_list_key).
  apply lookup_insert_eq.
Qed.

(** The handlers of [app.py] for creating (lines 156-171), reading
    (lines 192-205) and deleting (lines 207-220) a conversation, one
    after the other: with a title in the request the creation returns
    the summary of the new conversation with no messages and stores
    the document of the conversation (identifier, title, no messages,
    both times the first clock reading) under its key; reading the
    identifier then returns that stored document; deleting it returns
    the confirmation and leaves the key empty and every other key as
    it was; after that both reading and deleting it fail with the 404
    exception. *)
Theorem conversation_lifecycle_over_the_handlers (db : redis)
    (manager : ConversationManager) (title uuid4 : string) (now1 now2 : Z) :
  index_ok db →
  ∃ conversation db1 db2,
    App.create_conversation isoformat lax_int (Some manager)
        (mkCreateConversationRequest (Some title)) uuid4 now1 now2 db
      = (Returned (mkConversationSummary uuid4 title (isoformat now1)
                     (isoformat now1) 0), db1)
    ∧ conversation = JObj (new_document isoformat (Some title) uuid4 now1)
    ∧ db1 !! (CONVERSATION_PREFIX +:+ uuid4)
      = Some (RString (json_dumps conversation))
    ∧ App.get_conversation (Some manager) uuid4 db1
      = (Returned conversation, db1)
    ∧ subscript conversation "id" = Ok (JStr uuid4)
    ∧ subscript conversation "title" = Ok (JStr title)
    ∧ subscript conversation "messages" = Ok (JArr [])
    ∧ subscript conversation "created_at" = Ok (JStr (isoformat now1))
    ∧ subscript conversation "updated_at" = Ok (JStr (isoformat now1))
    ∧ App.delete_conversation (Some manager) uuid4 db1
      = (Returned (JObj {["message" :=
                            JStr "Conversation successfully deleted"]}), db2)
    ∧ db2 = delete (CONVERSATION_PREFIX +:+ uuid4) db1
    ∧ App.get_conversation (Some manager) uuid4 db2
      = (Failed (HTTPException 404 "Conversation not found"), db2)
    ∧ App.delete_conversation (Some manager) uuid4 db2
      = (Failed (HTTPException 404 "Conversation not found"), db2).
Proof.
  intros Hix.
  exists (JObj (new_document isoformat (Some title) uuid4 now1)).
  eexists. eexists.
  split.
  { unfold App.create_conversation, await.
    rewrite create_conversation_eq by done. reflexivity. }
  split; [done|].
  split; [apply created_record|].
  split.
  { unfold App.get_conversation, await.
    by erewrite get_conversation_present by apply created_record. }
  do 5 (split; [done|]).
  split.
  { unfold App.delete_conversation, await, delete_conversation, bind, ret,
      Redis.delete.
    by rewrite created_record. }
  split; [done|].
  split.
  - unfold App.get_conversation, await.
    by rewrite get_conversation_absent by apply lookup_delete_eq.
  - unfold App.delete_conversation, await, delete_conversation, bind, ret,
      Redis.delete.
    by rewrite lookup_delete_eq.
Qed.

(** *** The listing handler on the summaries of the manager *)

Lemma summary_model_of_summary (conv entry : json) :
  summary conv = Ok entry →
  ∃ id title created_at updated_at messages n,
    subscript conv "id" = Ok id
    ∧ subscript conv "title" = Ok title
    ∧ subscript conv "created_at" = Ok created_at
    ∧ subscript conv "updated_at" = Ok updated_at
    ∧ subscript conv "messages" = Ok messages
    ∧ py_len messages = Ok n
    ∧ App.summary_model lax_int entry
      = App.ConversationSummary_init lax_int id title created_at updated_at
          (JNum (Z.of_nat n)).
Proof.
  unfold summary.
  destruct (subscript conv "id") as [id|]; [|done].
  destruct (subscript conv "title") as [title|]; [|done].
  destruct (subscript conv "created_at") as [created_at|]; [|done].
  destruct (subscript conv "updated_at") as [updated_at|]; [|done].
  destruct (subscript conv "messages") as [messages|]; [|done].
  simpl. destruct (py_len messages) as [n|] eqn:Hn; [|done]. simpl.
  intros [= <-]. exists id, title, created_at, updated_at, messages, n.
  repeat (split; [done|]). reflexivity.
Qed.

Lemma summary_model_presentable (db : redis) (id : string) (entry : json) :
  presentable db →
  summarises db id entry →
  ∃ s,
    App.summary_model lax_int entry = Ok s ∧ cs_id s = id ∧ presents db s.
Proof.
  intros Hp (conv & Hdb & Hsum).
  destruct (Hp _ _ Hdb) as (m & t & c & u & l & [= ->] & Hid & Ht & Hc & Hu & Hl).
  destruct (summary_model_of_summary _ _ Hsum)
    as (id' & t' & c' & u' & ms & n & Hid' & Ht' & Hc' & Hu' & Hms & Hn & ->).
  unfold subscript in *. rewrite Hid in Hid'. rewrite Ht in Ht'.
  rewrite Hc in Hc'. rewrite Hu in Hu'. rewrite Hl in Hms.
  simplify_eq. simpl in Hn. simplify_eq.
  eexists. split; [reflexivity|]. split; [done|].
  exists m, l. simpl. repeat split; done.
Qed.

Lemma summary_model_consistent (db : redis) (id : string) (entry : json) :
  records_ok db →
  summarises db id entry →
  (∃ s, App.summary_model lax_int entry = Ok s)
  ∨ App.summary_model lax_int entry = Raise ValidationError.
Proof.
  intros Hrec (conv & Hdb & Hsum).
  destruct (summary_model_of_summary _ _ Hsum)
    as (id' & t' & c' & u' & ms & n & _ & _ & _ & _ & _ & _ & ->).
  unfold App.ConversationSummary_init.
  destruct (validate_str id'), (validate_str t'), (validate_str c'),
    (validate_str u'), (App.validate_int lax_int (JNum (Z.of_nat n)));
    eauto.
Qed.

Lemma listing_of_presentable (db : redis) (ids : list string)
    (entries : list json) :
  presentable db →
  Forall2 (summarises db) ids entries →
  ∃ summaries,
    result_map (App.summary_model lax_int) entries = Ok summaries
    ∧ cs_id <$> summaries = ids
    ∧ Forall (presents db) summaries.
Proof.
  intros Hp. induction 1 as [|id entry ids entries Hentry _ IH].
  - by exists [].
  - destruct IH as (summaries & Hmap & Hids & Hall).
    destruct (summary_model_presentable _ _ _ Hp Hentry) as (s & Hs & <- & Hpr).
    exists (s :: summaries). cbn [result_map]. rewrite Hs, Hmap. simpl.
    split; [done|]. split; [by f_equal | by constructor].
Qed.

Lemma listing_with_null_title (db : redis) (ids : list string)
    (entries : list json) (bad : string) (m : gmap string json) :
  records_ok db →
  Forall2 (summarises db) ids entries →
  bad ∈ ids →
  db !! (CONVERSATION_PREFIX +:+ bad) = Some (RString (json_dumps (JObj m))) →
  m !! "title" = Some JNull →
  result_map (App.summary_model lax_int) entries = Raise ValidationError.
Proof.
  intros Hrec Hall Hbad Hdb Htitle.
  induction Hall as [|id entry ids entries Hentry _ IH]; [by inv Hbad|].
  cbn [result_map].
  destruct (summary_model_consistent _ _ _ Hrec Hentry) as [[s Hs]| ->];
    [|done].
  rewrite Hs. simpl. rewrite IH; [done|].
  apply elem_of_cons in Hbad as [->|Hbad]; [|done]. exfalso.
  destruct Hentry as (conv & Hconv & Hsum). rewrite Hdb in Hconv.
  injection Hconv as <-.
  destruct (summary_model_of_summary _ _ Hsum)
    as (id' & t' & c' & u' & ms & n & _ & Ht' & _ & _ & _ & _ & Heq).
  unfold subscript in Ht'. rewrite Htitle in Ht'. injection Ht' as <-.
  rewrite Heq in Hs. unfold App.ConversationSummary_init in Hs. simpl in Hs.
  by destruct (validate_str id').
Qed.

Lemma presentable_records_ok (db : redis) : presentable db → records_ok db.
Proof.
  intros Hp conversation_id v Hv.
  destruct (Hp _ _ Hv) as (m & t & c & u & l & -> & Hid & Ht & Hc & Hu & Hl).
  exists m. split; [done|]. unfold well_formed. eauto 10.
Qed.

(** The listing handler (lines 173-190) on a store whose list key holds
    no plain string and whose records all have a string title and
    string times: it returns, without writing, one summary for each
    indexed conversation that has a record, in the order of the index;
    each summary shows the title and the times of its record and counts
    its stored messages. *)
Theorem listing_handler_shows_the_records (db : redis)
    (manager : ConversationManager) :
  index_ok db →
  presentable db →
  ∃ summaries,
    App.get_conversations lax_int (Some manager) db = (Returned summaries, db)
    ∧ cs_id <$> summaries
      = filter (has_record db) (Redis.descending (index db))
    ∧ Forall (presents db) summaries.
Proof.
  intros Hix Hp.
  assert (consistent db) as Hc by (split; [done | by apply presentable_records_ok]).
  destruct (list_conversations_spec db Hc) as (entries & Hlist & _).
  pose proof (list_conversations_returns _ _ _ Hlist) as [_ Hall].
  destruct (listing_of_presentable _ _ _ Hp Hall)
    as (summaries & Hmap & Hids & Hpr).
  exists summaries. unfold App.get_conversations, await, evaluated.
  by rewrite Hlist, Hmap.
Qed.

(** The creation handler (lines 156-171) when the request carries no
    title ([title: str = None], line 131): the manager stores the
    conversation with a null title and indexes it, and only then the
    construction of the [ConversationSummary], whose title must be a
    string, raises the validation error; the record stays.  From then
    on the listing handler (lines 173-190) raises the same error on
    that store. *)
Theorem creation_without_title_persists_then_fails (db : redis)
    (manager : ConversationManager) (uuid4 : string) (now1 now2 : Z) :
  consistent db →
  ∃ db',
    App.create_conversation isoformat lax_int (Some manager)
        (mkCreateConversationRequest None) uuid4 now1 now2 db
      = (Failed (Uncaught ValidationError), db')
    ∧ get_conversation uuid4 db'
      = (Ok (Some (JObj (new_document isoformat None uuid4 now1))), db')
    ∧ index db' !! uuid4 = Some now2
    ∧ App.get_conversations lax_int (Some manager) db'
      = (Failed (Uncaught ValidationError), db').
Proof.
  intros Hc. pose proof Hc as [Hix Hrec]. eexists.
  split.
  { unfold App.create_conversation, await. cbn [request_title].
    rewrite create_conversation_eq by done. reflexivity. }
  split; [by apply get_conversation_present, created_record|].
  split; [by rewrite index_insert_list, lookup_insert_eq|].
  pose proof (consistent_create isoformat db None uuid4 now1 now2 Hc) as Hc'.
  rewrite create_conversation_eq in Hc' by done. cbn [snd] in Hc'.
  destruct (list_conversations_spec _ Hc') as (entries & Hlist & _).
  pose proof (list_conversations_returns _ _ _ Hlist) as [_ Hall].
  unfold App.get_conversations, await, evaluated. rewrite Hlist.
  erewrite (listing_with_null_title _ _ _ uuid4); [done|apply Hc'|done| | |].
  - apply list_elem_of_filter. split.
    + unfold has_record. rewrite created_record. eauto.
    + apply elem_of_descending.
      rewrite index_insert_list, lookup_insert_eq. eauto.
  - apply created_record.
  - done.
Qed.

(** *** The chat handler *)

(** The chat handler (lines 222-248) does not catch the [ValueError] of
    the manager: for an identifier without record it ends with that
    exception, streaming or not, and not with the 404 exception that
    reading (lines 199-202) and deleting (lines 214-217) the same
    identifier raise; none of the three writes. *)
Theorem chat_handler_lets_the_missing_conversation_error_through
    (db : redis) (manager : ConversationManager) (conversation_id : string)
    (request : ChatRequest) (now1 now2 : Z) :
  db !! (CONVERSATION_PREFIX +:+ conversation_id) = None →
  App.chat isoformat py_repr (Some manager) conversation_id request
      now1 now2 db
    = (Failed (Uncaught (ValueError ("No conversation found with id: "
                                     +:+ conversation_id))), db)
  ∧ App.get_conversation (Some manager) conversation_id db
    = (Failed (HTTPException 404 "Conversation not found"), db)
  ∧ App.delete_conversation (Some manager) conversation_id db
    = (Failed (HTTPException 404 "Conversation not found"), db).
Proof.
  intros Hdb. split; [|split].
  - unfold App.chat, await.
    destruct (request_stream request);
      unfold chat, bind; by rewrite (get_conversation_absent _ _ Hdb).
  - unfold App.get_conversation, await.
    by rewrite (get_conversation_absent _ _ Hdb).
  - unfold App.delete_conversation, await, delete_conversation, bind, ret,
      Redis.delete.
    by rewrite Hdb.
Qed.

(** The chat handler (lines 222-248) on an existing conversation.
    Without streaming, when the agent loop returns, the handler returns
    a [ChatResponse] with the content of the final assistant message
    (the empty string when it has none) and the identifier, and the
    list the loop left is what is persisted.  With streaming it returns
    at once, without writing, the event stream over the generator of
    the turn. *)
Theorem chat_handler_answers (db : redis) (manager : ConversationManager)
    (conversation_id : string) (user_message : Message)
    (m : gmap string json) (history : list Message) (now1 now2 : Z) :
  index_ok db →
  db !! (CONVERSATION_PREFIX +:+ conversation_id)
    = Some (RString (json_dumps (JObj m))) →
  m !! "id" = Some (JStr conversation_id) →
  typed_messages (JObj m) = Ok history →
  (∀ ai final,
     response (manager_dial_client manager)
         (turn_messages history user_message) = Ok (ai, final) →
     ∃ db',
       App.chat isoformat py_repr (Some manager) conversation_id
           (mkChatRequest user_message false) now1 now2 db
         = (Returned (ChatResponse (default "" (content ai)) conversation_id),
            db')
       ∧ persisted_messages db' conversation_id = Some final)
  ∧ App.chat isoformat py_repr (Some manager) conversation_id
        (mkChatRequest user_message true) now1 now2 db
      = (Returned
           (StreamingResponse
              (Streaming (Created conversation_id
                            (turn_messages history user_message)))
              "text/event-stream"), db).
Proof.
  intros Hix Hdb Hid Hhistory.
  assert (truthy (JObj m) = true) as Htrue
    by (apply (truthy_document _ "id"); eauto).
  split.
  - intros ai final Hresp. eexists. split.
    + unfold App.chat, await. cbn [request_stream request_message].
      rewrite (chat_loaded _ _ _ _ _ _ _ _ _ _ _ Hdb Htrue Hhistory).
      unfold bind.
      rewrite (non_stream_chat_ok _ _ _ _ _ m _ _ _ _ _ Hix Hdb Hid Hresp).
      reflexivity.
    + apply persisted_after_save.
  - unfold App.chat, await. cbn [request_stream request_message].
    by rewrite (chat_loaded _ _ _ _ _ _ _ _ _ _ _ Hdb Htrue Hhistory).
Qed.

End Service.

(** ** The tools [lifespan] registers *)

Lemma register_tools_cons (client : mcp_client) (tool : json)
    (rest tools : list json) (map : gmap dict_key mcp_client) :
  App.register_tools client (tool :: rest) tools map
    = result_bind (tool_key tool) (λ key,
        App.register_tools client rest (tools ++ [tool])
          (<[key := client]> map)).
Proof.
  cbn [App.register_tools]. unfold tool_key.
  destruct (subscript tool "function") as [function|]; [|done]. simpl.
  by destruct (subscript function "name").
Qed.

Lemma register_tools_ok (client : mcp_client) (client_tools : list json)
    (keys : list dict_key) (tools : list json)
    (map : gmap dict_key mcp_client) :
  result_map tool_key client_tools = Ok keys →
  ∃ map',
    App.register_tools client client_tools tools map
      = Ok (tools ++ client_tools, map')
    ∧ ∀ key,
        map' !! key = if decide (key ∈ keys) then Some client else map !! key.
Proof.
  revert keys tools map.
  induction client_tools as [|tool rest IH]; intros keys tools map.
  - intros [= <-]. exists map. rewrite app_nil_r. split; [done|].
    intros key. by rewrite decide_False by apply not_elem_of_nil.
  - cbn [result_map]. rewrite register_tools_cons.
    destruct (tool_key tool) as [k|]; [|done]. simpl.
    destruct (result_map tool_key rest) as [ks|] eqn:Hrest; [|done]. simpl.
    intros [= <-].
    destruct (IH ks (tools ++ [tool]) (<[k := client]> map) eq_refl)
      as (map' & -> & Hmap).
    exists map'. rewrite <- app_assoc. split; [done|].
    intros key. rewrite Hmap.
    destruct (decide (key ∈ ks)) as [Hin|Hnin].
    + by rewrite decide_True by (apply elem_of_cons; by right).
    + destruct (decide (key = k)) as [->|Hne].
      * rewrite lookup_insert_eq.
        by rewrite decide_True by (apply elem_of_cons; by left).
      * rewrite lookup_insert_ne by done.
        rewrite decide_False; [done|].
        intros [?|?]%elem_of_cons; done.
Qed.

Lemma register_tools_raise (client : mcp_client) (client_tools : list json)
    (e : exn) (tools : list json) (map : gmap dict_key mcp_client) :
  result_map tool_key client_tools = Raise e →
  App.register_tools client client_tools tools map = Raise e.
Proof.
  revert tools map.
  induction client_tools as [|tool rest IH]; intros tools map; [done|].
  cbn [result_map]. rewrite register_tools_cons.
  destruct (tool_key tool) as [k|]; simpl; [|by intros [= ->]].
  destruct (result_map tool_key rest) as [ks|] eqn:Hrest; simpl; [done|].
  intros [= <-]. by apply IH.
Qed.

(** The two registration loops of [lifespan] (lines 54-72): when every
    tool of both clients has a hashable [function.name], the tools
    handed to the model client are the tools of the user service
    followed by those of the search client, duplicates included, and a
    name is bound to the search client if that client offers it, else
    to the user-service client if that one offers it, else not at all:
    on a name offered by both, the later registration wins.  A tool of
    the user service without such a name makes the start-up raise. *)
Theorem lifespan_registers_tools_last_one_wins
    (ums_tools duckduckgo_tools : list json) :
  (∀ ums_keys duckduckgo_keys,
     result_map tool_key ums_tools = Ok ums_keys →
     result_map tool_key duckduckgo_tools = Ok duckduckgo_keys →
     ∃ map,
       App.lifespan_tools ums_tools duckduckgo_tools
         = Ok (ums_tools ++ duckduckgo_tools, map)
       ∧ ∀ key,
           map !! key
             = if decide (key ∈ duckduckgo_keys)
               then Some duckduckgo_mcp_client
               else if decide (key ∈ ums_keys) then Some ums_mcp_client
               else None)
  ∧ (∀ e,
       result_map tool_key ums_tools = Raise e →
       App.lifespan_tools ums_tools duckduckgo_tools = Raise e)
  ∧ (∀ ums_keys e,
       result_map tool_key ums_tools = Ok ums_keys →
       result_map tool_key duckduckgo_tools = Raise e →
       App.lifespan_tools ums_tools duckduckgo_tools = Raise e).
Proof.
  unfold App.lifespan_tools. split; [|split].
  - intros ums_keys duckduckgo_keys Hums Hddg.
    destruct (register_tools_ok ums_mcp_client _ _ [] ∅ Hums)
      as (map1 & -> & Hmap1).
    simpl.
    destruct (register_tools_ok duckduckgo_mcp_client _ _ ums_tools map1 Hddg)
      as (map2 & -> & Hmap2).
    exists map2. split; [done|]. intros key. rewrite Hmap2, Hmap1.
    by rewrite lookup_empty.
  - intros e Hums. by rewrite (register_tools_raise _ _ _ _ _ Hums).
  - intros ums_keys e Hums Hddg.
    destruct (register_tools_ok ums_mcp_client _ _ [] ∅ Hums)
      as (map1 & -> & _).
    simpl. by apply register_tools_raise.
Qed.

(** * Turns that overlap *)

Section Interleaving.

Context (isoformat : Z → string).
Context (py_repr : json → string).
Context (dial_client : DialClient).

(** Two streaming turns on one conversation ([chat], lines 131-142;
    [_stream_chat], lines 157-160).  Both generators are created from
    the history stored when [chat] was called, and each saves the list
    its own loop left: when the first stream has been read to its end
    (its list is persisted) and then the second, the persisted list is
    the one of the second turn, built on the history from before the
    first; what the first turn saved is overwritten. *)
Theorem overlapping_streams_last_save_wins (db : redis)
    (conversation_id : string) (m : gmap string json)
    (history final1 final2 : list Message) (first second : Message)
    (chunks1 chunks2 : list string) (a1 a2 b1 b2 c1 c2 d1 d2 : Z) :
  index_ok db →
  db !! (CONVERSATION_PREFIX +:+ conversation_id)
    = Some (RString (json_dumps (JObj m))) →
  m !! "id" = Some (JStr conversation_id) →
  typed_messages (JObj m) = Ok history →
  stream_response dial_client (turn_messages history first)
    = (chunks1, Ok final1) →
  stream_response dial_client (turn_messages history second)
    = (chunks2, Ok final2) →
  ∃ g1 g2 db1 db2,
    chat isoformat py_repr dial_client first conversation_id true a1 a2 db
      = (Ok (Streaming g1), db)
    ∧ chat isoformat py_repr dial_client second conversation_id true b1 b2 db
      = (Ok (Streaming g2), db)
    ∧ pull isoformat py_repr dial_client (S (S (length chunks1))) g1 c1 c2 db
      = (Ok (Some (identifier_frame conversation_id))
           :: (chunk_item <$> chunks1) ++ [Ok None], Finished, db1)
    ∧ persisted_messages db1 conversation_id = Some final1
    ∧ pull isoformat py_repr dial_client (S (S (length chunks2))) g2 d1 d2 db1
      = (Ok (Some (identifier_frame conversation_id))
           :: (chunk_item <$> chunks2) ++ [Ok None], Finished, db2)
    ∧ persisted_messages db2 conversation_id = Some final2.
Proof.
  intros Hix Hdb Hid Hhistory Hfirst Hsecond.
  assert (truthy (JObj m) = true) as Htrue
    by (apply (truthy_document _ "id"); eauto).
  set (m1 := <["updated_at" := JStr (isoformat c1)]>
               (<["messages" := JArr (model_dump <$> final1)]> m)).
  set (db1 := after_save isoformat conversation_id m final1 c1 c2 db).
  exists (Created conversation_id (turn_messages history first)),
    (Created conversation_id (turn_messages history second)),
    db1, (after_save isoformat conversation_id m1 final2 d1 d2 db1).
  split.
  { by rewrite (chat_loaded _ _ _ _ _ _ _ _ _ _ _ Hdb Htrue Hhistory). }
  split.
  { by rewrite (chat_loaded _ _ _ _ _ _ _ _ _ _ _ Hdb Htrue Hhistory). }
  split; [by apply pull_drained|].
  split; [apply persisted_after_save|].
  split; [|apply persisted_after_save].
  apply pull_drained; [| | |done].
  - intros t. unfold db1, after_save. by rewrite lookup_insert_eq.
  - unfold db1, after_save.
    rewrite lookup_insert_ne
      by (apply not_eq_sym, conversation_key_not_list_key).
    apply lookup_insert_eq.
  - unfold m1. by rewrite !lookup_insert_ne.
Qed.

End Interleaving.

(** * The further statements on the small deployment *)

Lemma presentable_empty : presentable ∅.
Proof. intros id v H. by rewrite lookup_empty in H. Qed.

Lemma presentable_create (isoformat : Z → string) (db : redis)
    (title uuid4 : string) (now1 now2 : Z) :
  index_ok db →
  presentable db →
  presentable (create_conversation isoformat (Some title) uuid4 now1 now2 db).2.
Proof.
  intros Hix Hp. rewrite create_conversation_eq by done. simpl.
  intros id v.
  rewrite lookup_insert_ne
    by (apply not_eq_sym, conversation_key_not_list_key).
  destruct (decide (id = uuid4)) as [->|Hne].
  - rewrite lookup_insert_eq. intros [= <-].
    exists (new_document isoformat (Some title) uuid4 now1), title,
      (isoformat now1), (isoformat now1), [].
    repeat split; reflexivity.
  - rewrite lookup_insert_ne by (apply conversation_key_ne; congruence).
    apply Hp.
Qed.

Lemma presentable_store_two : presentable store_two.
Proof.
  apply presentable_create; [apply index_ok_store_one|].
  apply presentable_create; [apply consistent_empty|apply presentable_empty].
Qed.

Lemma store_two_scores (id : string) (score : Z) :
  index store_two !! id = Some score → score < 6.
Proof.
  assert (index store_two = <["c2" := 4]> (<["c1" := 2]> ∅)) as ->
    by (vm_compute; reflexivity).
  intros [[_ <-]|[_ [[_ <-]|[_ H]]%lookup_insert_Some]]%lookup_insert_Some;
    [lia|lia|].
  by rewrite lookup_empty in H.
Qed.

Lemma index_ok_store_copy : index_ok store_copy.
Proof. apply index_ok_insert_record, index_ok_store_one. Qed.

Lemma create_conversation_then_get_witness :
  index_ok store_one
  ∧ ∃ conversation db',
      create_conversation sample_isoformat (Some "second") "c2" 3 4 store_one
        = (Ok conversation, db')
      ∧ get_conversation "c2" db' = (Ok (Some conversation), db')
      ∧ subscript conversation "title" = Ok (JStr "second")
      ∧ index db' = <["c2" := 4]> (index store_one).
Proof.
  split; [apply index_ok_store_one|].
  destruct (create_conversation_then_get sample_isoformat store_one
              (Some "second") "c2" 3 4 index_ok_store_one)
    as (conversation & db' & Hcreate & Hget & _ & Htitle & _ & _ & _ & _
        & Hindex & _).
  exists conversation, db'.
  split; [exact Hcreate|]. split; [exact Hget|]. split; [exact Htitle|].
  exact Hindex.
Defined.

Lemma save_rewrites_messages_and_update_time_witness :
  index_ok store_one
  ∧ store_one !! (CONVERSATION_PREFIX +:+ "c1")
      = Some (RString (json_dumps (JObj document_one)))
  ∧ document_one !! "id" = Some (JStr "c1")
  ∧ ∃ m' db',
      _save_conversation_messages sample_isoformat sample_repr "c1"
          sample_exchange 3 4 store_one
        = (Ok tt, db')
      ∧ db' !! (CONVERSATION_PREFIX +:+ "c1")
        = Some (RString (json_dumps (JObj m')))
      ∧ m' !! "messages" = Some (JArr (model_dump <$> sample_exchange))
      ∧ m' !! "updated_at" = Some (JStr "2025-01-01T00:00:03+00:00")
      ∧ m' !! "title" = Some (JStr "first")
      ∧ m' !! "created_at" = Some (JStr "2025-01-01T00:00:01+00:00")
      ∧ index db' !! "c1" = Some 4.
Proof.
  assert (document_one !! "id" = Some (JStr "c1")) as Hid
    by (vm_compute; reflexivity).
  split; [apply index_ok_store_one|]. split; [apply store_one_record|].
  split; [exact Hid|].
  destruct (save_rewrites_messages_and_update_time sample_isoformat
              sample_repr store_one "c1" document_one sample_exchange 3 4
              index_ok_store_one store_one_record Hid)
    as (m' & db' & Hsave & Hrecord & Hmessages & Hupdated & Hrest & Hindex
        & _).
  exists m', db'.
  split; [exact Hsave|]. split; [exact Hrecord|]. split; [exact Hmessages|].
  split; [exact Hupdated|].
  split; [by rewrite Hrest|]. split; [by rewrite Hrest|].
  rewrite Hindex. apply lookup_insert_eq.
Defined.

Lemma save_follows_the_id_of_the_document_witness :
  index_ok store_copy
  ∧ store_copy !! (CONVERSATION_PREFIX +:+ "c7")
      = Some (RString (json_dumps (JObj document_one)))
  ∧ document_one !! "id" = Some (JStr "c1")
  ∧ ∃ db',
      _save_conversation_messages sample_isoformat sample_repr "c7"
          sample_exchange 3 4 store_copy
        = (Ok tt, db')
      ∧ persisted_messages db' "c7" = Some []
      ∧ persisted_messages db' "c1" = Some sample_exchange
      ∧ index db' !! "c1" = Some 4
      ∧ index db' !! "c7" = None.
Proof.
  assert (store_copy !! (CONVERSATION_PREFIX +:+ "c7")
          = Some (RString (json_dumps (JObj document_one)))) as Hrecord
    by (vm_compute; reflexivity).
  assert (document_one !! "id" = Some (JStr "c1")) as Hid
    by (vm_compute; reflexivity).
  assert ("c1" ≠ "c7") as Hne by done.
  split; [apply index_ok_store_copy|]. split; [exact Hrecord|].
  split; [exact Hid|].
  destruct (save_follows_the_id_of_the_document sample_isoformat sample_repr
              store_copy "c7" "c1" document_one sample_exchange 3 4
              index_ok_store_copy Hrecord Hid Hne)
    as (db' & Hsave & Hkept & Hpersisted & Hindex).
  exists db'. split; [exact Hsave|].
  split.
  { unfold persisted_messages.
    rewrite (get_conversation_present db' "c7" (JObj document_one))
      by (by rewrite Hkept).
    vm_compute. reflexivity. }
  split; [exact Hpersisted|].
  rewrite Hindex. split; [apply lookup_insert_eq|].
  rewrite lookup_insert_ne by done. vm_compute. reflexivity.
Defined.

Lemma index_never_shrinks_witness :
  manager_step sample_isoformat sample_repr sample_client store_one store_gone
  ∧ is_Some (index store_one !! "c1")
  ∧ is_Some (index store_gone !! "c1").
Proof.
  assert (manager_step sample_isoformat sample_repr sample_client store_one
            store_gone) as Hstep
    by exact (step_delete _ _ _ store_one "c1").
  assert (is_Some (index store_one !! "c1")) as Hindexed
    by (exists 2; vm_compute; reflexivity).
  split; [exact Hstep|]. split; [exact Hindexed|].
  exact (index_never_shrinks sample_isoformat sample_repr sample_client
           store_one store_gone "c1" Hstep Hindexed).
Defined.

Lemma chat_moves_conversation_to_top_witness :
  consistent store_two
  ∧ Redis.descending (index store_two) = ["c2"; "c1"]
  ∧ ∃ d db' entry entries,
      chat sample_isoformat sample_repr sample_client sample_question "c1"
          false 5 6 store_two
        = (Ok (Answer d), db')
      ∧ list_conversations db' = (Ok (entry :: entries), db')
      ∧ summary_id entry = Ok (JStr "c1")
      ∧ summary_count entry = Ok (JNum 3).
Proof.
  split; [apply consistent_store_two|].
  split; [vm_compute; reflexivity|].
  apply (chat_moves_conversation_to_top sample_isoformat sample_repr
           sample_client store_two sample_question "c1" document_one []
           [mkMessage SYSTEM (Some SYSTEM_PROMPT) None None;
            sample_question; sample_answer]
           sample_answer 5 6 consistent_store_two store_two_record).
  - vm_compute. reflexivity.
  - reflexivity.
  - apply store_two_scores.
Defined.

Lemma exhausted_stream_saves_once_witness :
  pull sample_isoformat sample_repr sample_client 6
      (Created "c1"
         [mkMessage SYSTEM (Some SYSTEM_PROMPT) None None; sample_question])
      3 4 store_one
    = (Ok (Some (identifier_frame "c1"))
         :: (chunk_item <$> ["There is one "; "user: A"])
         ++ end_of_stream
              (_save_conversation_messages sample_isoformat sample_repr "c1"
                 [mkMessage SYSTEM (Some SYSTEM_PROMPT) None None;
                  sample_question; sample_answer] 3 4 store_one).1
         :: [Ok None; Ok None],
       Finished,
       (_save_conversation_messages sample_isoformat sample_repr "c1"
          [mkMessage SYSTEM (Some SYSTEM_PROMPT) None None;
           sample_question; sample_answer] 3 4 store_one).2).
Proof.
  exact (exhausted_stream_saves_once sample_isoformat sample_repr
           sample_client store_one "c1"
           [mkMessage SYSTEM (Some SYSTEM_PROMPT) None None; sample_question]
           ["There is one "; "user: A"]
           (Ok [mkMessage SYSTEM (Some SYSTEM_PROMPT) None None;
                sample_question; sample_answer])
           3 4 2%nat eq_refl).
Defined.

Lemma delete_then_list_witness :
  consistent store_three
  ∧ ∃ entries entries' ids,
      list_conversations store_three = (Ok entries, store_three)
      ∧ summary_id <$> entries = (λ id, Ok (JStr id)) <$> ids
      ∧ list_conversations store_gap = (Ok entries', store_gap)
      ∧ summary_id <$> entries'
        = (λ id, Ok (JStr id)) <$> filter (λ id, id ≠ "c2") ids.
Proof.
  split; [apply consistent_store_three|].
  exact (delete_then_list store_three "c2" consistent_store_three).
Defined.

Lemma chat_on_missing_or_null_messages_witness :
  chat sample_isoformat sample_repr sample_client sample_question "c1" true
      3 4 store_no_messages
    = (Ok (Streaming (Created "c1"
         [mkMessage SYSTEM (Some SYSTEM_PROMPT) None None; sample_question])),
       store_no_messages)
  ∧ chat sample_isoformat sample_repr sample_client sample_question "c1"
        false 3 4 store_null_messages
      = (Raise TypeError, store_null_messages).
Proof.
  assert (store_no_messages !! (CONVERSATION_PREFIX +:+ "c1")
          = Some (RString (json_dumps
                    (JObj (delete "messages" document_one))))) as Hmissing
    by (vm_compute; reflexivity).
  assert (store_null_messages !! (CONVERSATION_PREFIX +:+ "c1")
          = Some (RString (json_dumps
                    (JObj (<["messages" := JNull]> document_one))))) as Hnull
    by (vm_compute; reflexivity).
  split.
  - apply (proj1 (chat_on_missing_or_null_messages sample_isoformat
             sample_repr sample_client store_no_messages sample_question "c1"
             (delete "messages" document_one) true 3 4 Hmissing eq_refl)).
    vm_compute. reflexivity.
  - apply (proj2 (chat_on_missing_or_null_messages sample_isoformat
             sample_repr sample_client store_null_messages sample_question
             "c1" (<["messages" := JNull]> document_one) false 3 4 Hnull
             eq_refl)).
    vm_compute. reflexivity.
Defined.

Lemma chat_takes_a_falsy_document_for_missing_witness :
  store_empty_document !! (CONVERSATION_PREFIX +:+ "c1")
    = Some (RString (json_dumps (JObj ∅)))
  ∧ get_conversation "c1" store_empty_document
    = (Ok (Some (JObj ∅)), store_empty_document)
  ∧ chat sample_isoformat sample_repr sample_client sample_question "c1"
        false 3 4 store_empty_document
      = (Raise (ValueError "No conversation found with id: c1"),
         store_empty_document).
Proof.
  assert (store_empty_document !! (CONVERSATION_PREFIX +:+ "c1")
          = Some (RString (json_dumps (JObj ∅)))) as Hrecord
    by (vm_compute; reflexivity).
  split; [exact Hrecord|].
  exact (chat_takes_a_falsy_document_for_missing sample_isoformat sample_repr
           sample_client store_empty_document sample_question "c1" (JObj ∅)
           false 3 4 Hrecord eq_refl).
Defined.

Lemma reachable_consistent_witness :
  reachable sample_isoformat sample_repr sample_client store_gap
  ∧ consistent store_gap.
Proof.
  assert (reachable sample_isoformat sample_repr sample_client store_gap)
    as Hreachable.
  { unfold store_gap, store_three, store_two, store_one.
    apply reachable_delete. do 3 apply reachable_create.
    apply reachable_empty. }
  split; [exact Hreachable|].
  exact (reachable_consistent sample_isoformat sample_repr sample_client
           store_gap Hreachable).
Defined.

Lemma conversation_lifecycle_over_the_handlers_witness :
  index_ok store_one
  ∧ ∃ conversation db1 db2,
      App.create_conversation sample_isoformat sample_lax_int
          (Some sample_manager) (mkCreateConversationRequest (Some "second"))
          "c2" 3 4 store_one
        = (Returned (mkConversationSummary "c2" "second"
                       "2025-01-01T00:00:03+00:00"
                       "2025-01-01T00:00:03+00:00" 0), db1)
      ∧ conversation = JObj (new_document sample_isoformat (Some "second")
                               "c2" 3)
      ∧ db1 !! (CONVERSATION_PREFIX +:+ "c2")
        = Some (RString (json_dumps conversation))
      ∧ App.get_conversation (Some sample_manager) "c2" db1
        = (Returned conversation, db1)
      ∧ subscript conversation "id" = Ok (JStr "c2")
      ∧ subscript conversation "title" = Ok (JStr "second")
      ∧ subscript conversation "messages" = Ok (JArr [])
      ∧ subscript conversation "created_at"
        = Ok (JStr "2025-01-01T00:00:03+00:00")
      ∧ subscript conversation "updated_at"
        = Ok (JStr "2025-01-01T00:00:03+00:00")
      ∧ App.delete_conversation (Some sample_manager) "c2" db1
        = (Returned (JObj {["message" :=
                              JStr "Conversation successfully deleted"]}),
           db2)
      ∧ db2 = delete (CONVERSATION_PREFIX +:+ "c2") db1
      ∧ App.get_conversation (Some sample_manager) "c2" db2
        = (Failed (HTTPException 404 "Conversation not found"), db2)
      ∧ App.delete_conversation (Some sample_manager) "c2" db2
        = (Failed (HTTPException 404 "Conversation not found"), db2).
Proof.
  split; [apply index_ok_store_one|].
  exact (conversation_lifecycle_over_the_handlers sample_isoformat
           sample_lax_int store_one sample_manager "second" "c2" 3 4
           index_ok_store_one).
Defined.

Lemma listing_handler_shows_the_records_witness :
  index_ok store_two
  ∧ presentable store_two
  ∧ ∃ summaries,
      App.get_conversations sample_lax_int (Some sample_manager) store_two
        = (Returned summaries, store_two)
      ∧ cs_id <$> summaries = ["c2"; "c1"]
      ∧ Forall (presents store_two) summaries.
Proof.
  split; [apply consistent_store_two|].
  split; [apply presentable_store_two|].
  destruct (listing_handler_shows_the_records sample_lax_int store_two
              sample_manager (proj1 consistent_store_two)
              presentable_store_two)
    as (summaries & Hlist & Hids & Hshown).
  exists summaries. split; [exact Hlist|]. split; [|exact Hshown].
  rewrite Hids. vm_compute. reflexivity.
Defined.

Lemma creation_without_title_persists_then_fails_witness :
  consistent store_one
  ∧ ∃ db',
      App.create_conversation sample_isoformat sample_lax_int
          (Some sample_manager) (mkCreateConversationRequest None) "c3" 5 6
          store_one
        = (Failed (Uncaught ValidationError), db')
      ∧ get_conversation "c3" db'
        = (Ok (Some (JObj (new_document sample_isoformat None "c3" 5))), db')
      ∧ index db' !! "c3" = Some 6
      ∧ App.get_conversations sample_lax_int (Some sample_manager) db'
        = (Failed (Uncaught ValidationError), db').
Proof.
  split; [apply consistent_store_one|].
  exact (creation_without_title_persists_then_fails sample_isoformat
           sample_lax_int store_one sample_manager "c3" 5 6
           consistent_store_one).
Defined.

Lemma chat_handler_lets_the_missing_conversation_error_through_witness :
  store_one !! (CONVERSATION_PREFIX +:+ "c9") = None
  ∧ App.chat sample_isoformat sample_repr (Some sample_manager) "c9"
        (mkChatRequest sample_question true) 3 4 store_one
    = (Failed (Uncaught (ValueError "No conversation found with id: c9")),
       store_one)
  ∧ App.get_conversation (Some sample_manager) "c9" store_one
    = (Failed (HTTPException 404 "Conversation not found"), store_one)
  ∧ App.delete_conversation (Some sample_manager) "c9" store_one
    = (Failed (HTTPException 404 "Conversation not found"), store_one).
Proof.
  assert (store_one !! (CONVERSATION_PREFIX +:+ "c9") = None) as Hnone
    by (vm_compute; reflexivity).
  split; [exact Hnone|].
  exact (chat_handler_lets_the_missing_conversation_error_through
           sample_isoformat sample_repr store_one sample_manager "c9"
           (mkChatRequest sample_question true) 3 4 Hnone).
Defined.

Lemma chat_handler_answers_witness :
  index_ok store_one
  ∧ store_one !! (CONVERSATION_PREFIX +:+ "c1")
      = Some (RString (json_dumps (JObj document_one)))
  ∧ (∃ db',
       App.chat sample_isoformat sample_repr (Some sample_manager) "c1"
           (mkChatRequest sample_question false) 3 4 store_one
         = (Returned (ChatResponse "There is one user: A" "c1"), db')
       ∧ persisted_messages db' "c1"
         = Some [mkMessage SYSTEM (Some SYSTEM_PROMPT) None None;
                 sample_question; sample_answer])
  ∧ App.chat sample_isoformat sample_repr (Some sample_manager) "c1"
        (mkChatRequest sample_question true) 3 4 store_one
      = (Returned
           (StreamingResponse
              (Streaming (Created "c1"
                 [mkMessage SYSTEM (Some SYSTEM_PROMPT) None None;
                  sample_question]))
              "text/event-stream"), store_one).
Proof.
  assert (document_one !! "id" = Some (JStr "c1")) as Hid
    by (vm_compute; reflexivity).
  assert (typed_messages (JObj document_one) = Ok []) as Hhistory
    by (vm_compute; reflexivity).
  destruct (chat_handler_answers sample_isoformat sample_repr store_one
              sample_manager "c1" sample_question document_one [] 3 4
              index_ok_store_one store_one_record Hid Hhistory)
    as [Hanswer Hstream].
  split; [apply index_ok_store_one|]. split; [apply store_one_record|].
  split; [|exact Hstream].
  exact (Hanswer sample_answer
           [mkMessage SYSTEM (Some SYSTEM_PROMPT) None None;
            sample_question; sample_answer] eq_refl).
Defined.

Lemma lifespan_registers_tools_last_one_wins_witness :
  ∃ map,
    App.lifespan_tools sample_ums_tools sample_duckduckgo_tools
      = Ok (sample_ums_tools ++ sample_duckduckgo_tools, map)
    ∧ map !! KeyStr "search" = Some duckduckgo_mcp_client
    ∧ map !! KeyStr "fetch_content" = Some duckduckgo_mcp_client
    ∧ map !! KeyStr "get_user_by_id" = Some ums_mcp_client
    ∧ map !! KeyStr "delete_user" = None.
Proof.
  assert (result_map tool_key sample_ums_tools
          = Ok [KeyStr "get_user_by_id"; KeyStr "search"]) as Hums
    by (vm_compute; reflexivity).
  assert (result_map tool_key sample_duckduckgo_tools
          = Ok [KeyStr "search"; KeyStr "fetch_content"]) as Hddg
    by (vm_compute; reflexivity).
  destruct (proj1 (lifespan_registers_tools_last_one_wins sample_ums_tools
                     sample_duckduckgo_tools) _ _ Hums Hddg)
    as (map & Hlifespan & Hmap).
  exists map. split; [exact Hlifespan|].
  rewrite !Hmap. vm_compute. repeat split.
Defined.

Lemma overlapping_streams_last_save_wins_witness :
  index_ok store_one
  ∧ ∃ g1 g2 db1 db2,
      chat sample_isoformat sample_repr sample_client sample_question "c1"
          true 3 4 store_one
        = (Ok (Streaming g1), store_one)
      ∧ chat sample_isoformat sample_repr sample_client second_question "c1"
            true 3 4 store_one
        = (Ok (Streaming g2), store_one)
      ∧ pull sample_isoformat sample_repr sample_client 4 g1 3 4 store_one
        = (Ok (Some (identifier_frame "c1"))
             :: (chunk_item <$> ["There is one "; "user: A"]) ++ [Ok None],
           Finished, db1)
      ∧ persisted_messages db1 "c1"
        = Some [mkMessage SYSTEM (Some SYSTEM_PROMPT) None None;
                sample_question; sample_answer]
      ∧ pull sample_isoformat sample_repr sample_client 4 g2 5 6 db1
        = (Ok (Some (identifier_frame "c1"))
             :: (chunk_item <$> ["There is one "; "user: A"]) ++ [Ok None],
           Finished, db2)
      ∧ persisted_messages db2 "c1"
        = Some [mkMessage SYSTEM (Some SYSTEM_PROMPT) None None;
                second_question; sample_answer].
Proof.
  assert (document_one !! "id" = Some (JStr "c1")) as Hid
    by (vm_compute; reflexivity).
  assert (typed_messages (JObj document_one) = Ok []) as Hhistory
    by (vm_compute; reflexivity).
  split; [apply index_ok_store_one|].
  exact (overlapping_streams_last_save_wins sample_isoformat sample_repr
           sample_client store_one "c1" document_one []
           [mkMessage SYSTEM (Some SYSTEM_PROMPT) None None;
            sample_question; sample_answer]
           [mkMessage SYSTEM (Some SYSTEM_PROMPT) None None;
            second_question; sample_answer]
           sample_question second_question
           ["There is one "; "user: A"] ["There is one "; "user: A"]
           3 4 3 4 3 4 5 6 index_ok_store_one store_one_record Hid Hhistory
           eq_refl eq_refl).
Defined.

Lemma chat_writes_only_through_the_save_witness :
  store_talked !! (CONVERSATION_PREFIX +:+ "c1")
    = Some (RString (json_dumps (JObj document_talked)))
  ∧ chat sample_isoformat sample_repr sample_client second_question "c1"
        true 5 6 store_talked
    = (Ok (Streaming (Created "c1"
         [mkMessage SYSTEM (Some SYSTEM_PROMPT) None None;
          sample_question; sample_answer; second_question])),
       store_talked)
  ∧ (chat sample_isoformat sample_repr sample_client second_question "c1"
       false 5 6 store_talked).2
    = (_save_conversation_messages sample_isoformat sample_repr "c1"
         [mkMessage SYSTEM (Some SYSTEM_PROMPT) None None;
          sample_question; sample_answer; second_question; sample_answer]
         5 6 store_talked).2.
Proof.
  assert (store_talked !! (CONVERSATION_PREFIX +:+ "c1")
          = Some (RString (json_dumps (JObj document_talked)))) as Hdb
    by (vm_compute; reflexivity).
  assert (document_talked !! "messages"
          = Some (JArr (model_dump
                          <$> [mkMessage SYSTEM (Some SYSTEM_PROMPT) None None;
                               sample_question; sample_answer]))) as Hmessages
    by (vm_compute; reflexivity).
  destruct (proj2 (proj2 (proj2
              (chat_writes_only_through_the_save sample_isoformat sample_repr
                 sample_client store_talked second_question "c1" 5 6)))
              document_talked
              [mkMessage SYSTEM (Some SYSTEM_PROMPT) None None;
               sample_question; sample_answer] Hdb Hmessages)
    as [Hstream Hsave].
  split; [exact Hdb|]. split; [exact Hstream|].
  exact (Hsave sample_answer
           [mkMessage SYSTEM (Some SYSTEM_PROMPT) None None;
            sample_question; sample_answer; second_question; sample_answer]
           eq_refl).
Defined.
